(** * Course-schedule scraper and snapshot differ: a shallow embedding

    The development follows [bscraper-compare.py]: the snapshot differ
    [FileManager.compare_course_files] and the scraping pipeline of
    [BannerScraper] (term authorization with retries, paginated search,
    enrollment parsing, record normalisation).

    Python values are modelled by the small types of module [Py]; dicts used
    as maps are [gmap]s, dicts whose insertion order is observable are
    association lists, sets are [gset]s.  Network traffic, sleeping and the
    retry log are effects recorded in a trace of events. *)

From Stdlib Require Import ZArith Ascii String.
From stdpp Require Import gmap strings list fin_maps pretty.

Open Scope Z_scope.

(** ** Python values and strings *)

Module Py.

(** Exceptions the modelled code can meet.  [JSONDecodeError] and
    [InvalidURL] are those of [requests]: each derives from both
    [RequestException] and [ValueError]. *)
Inductive exn :=
| FileNotFoundError
| ParserError
| KeyError (key : string)
| ConnectionError
| Timeout
| InvalidURL
| HTTPError (status : Z)
| JSONDecodeError
| AttributeError
| TypeError
| ParserRejectedMarkup.

Definition is_RequestException (e : exn) : bool :=
  match e with
  | ConnectionError | Timeout | InvalidURL | HTTPError _ | JSONDecodeError => true
  | _ => false
  end.

Definition is_ValueError (e : exn) : bool :=
  match e with
  | InvalidURL | JSONDecodeError => true
  | _ => false
  end.

(** The outcome of a call: a value or a raised exception. *)
Inductive result (A : Type) :=
| Ok (a : A)
| Err (e : exn).
Arguments Ok {A} a.
Arguments Err {A} e.

#[export] Instance result_ret : MRet result := fun A a => Ok a.
#[export] Instance result_bind : MBind result := fun A B f m =>
  match m with
  | Ok a => f a
  | Err e => Err e
  end.

(** Scalars as JSON decoding produces them ([None], [bool], [int], [str]);
    floats are outside the model. *)
Inductive scalar :=
| PNone
| PBool (b : bool)
| PInt (z : Z)
| PStr (s : string).

#[export] Instance scalar_eq_dec : EqDecision scalar.
Proof. solve_decision. Defined.

#[export] Instance scalar_inhabited : Inhabited scalar := populate PNone.

(** Truth value, as tested by [if v:]. *)
Definition truthy (v : scalar) : bool :=
  match v with
  | PNone => false
  | PBool b => b
  | PInt z => negb (z =? 0)
  | PStr s => negb (String.eqb s "")
  end.

(** [a == b]: [bool] is a subclass of [int], so [True == 1]. *)
Definition py_eq (a b : scalar) : bool :=
  match a, b with
  | PNone, PNone => true
  | PBool x, PBool y => Bool.eqb x y
  | PBool x, PInt y | PInt y, PBool x => Z.b2z x =? y
  | PInt x, PInt y => x =? y
  | PStr x, PStr y => String.eqb x y
  | _, _ => false
  end.

(** [str(v)], also what an f-string inserts for [{v}]. *)
Definition py_str (v : scalar) : string :=
  match v with
  | PNone => "None"
  | PBool true => "True"
  | PBool false => "False"
  | PInt z => pretty z
  | PStr s => s
  end.

(** [d.get(key, default)] on a dict of scalars. *)
Definition get (d : gmap string scalar) (key : string) (dflt : scalar) : scalar :=
  default dflt (d !! key).

(** ASCII white space removed by [str.strip()]: tab, line feed, vertical
    tab, form feed, carriage return, the four separators 28..31 and space. *)
Definition is_space (c : ascii) : bool :=
  let n := nat_of_ascii c in
  ((9 <=? n) && (n <=? 13) || (28 <=? n) && (n <=? 32))%nat.

Fixpoint lstrip (s : string) : string :=
  match s with
  | EmptyString => EmptyString
  | String c rest => if is_space c then lstrip rest else s
  end.

Definition rstrip (s : string) : string :=
  String.rev (lstrip (String.rev s)).

Definition strip (s : string) : string := rstrip (lstrip s).

(** [sub in s]. *)
Fixpoint contains (sub s : string) : bool :=
  String.prefix sub s ||
  match s with
  | EmptyString => false
  | String _ rest => contains sub rest
  end.

(** [s.lower()] on ASCII letters. *)
Definition lower_ascii (c : ascii) : ascii :=
  let n := nat_of_ascii c in
  if ((65 <=? n) && (n <=? 90))%nat then ascii_of_nat (n + 32) else c.

Fixpoint lower (s : string) : string :=
  match s with
  | EmptyString => EmptyString
  | String c rest => String (lower_ascii c) (lower rest)
  end.

(** [d[key] = v] on an insertion-ordered dict: an existing key keeps its
    place, a new key goes last. *)
Fixpoint dict_set {V : Type} (key : string) (v : V) (d : list (string * V))
  : list (string * V) :=
  match d with
  | [] => [(key, v)]
  | (k, w) :: rest =>
      if String.eqb k key then (k, v) :: rest else (k, w) :: dict_set key v rest
  end.

End Py.
Import Py.

(** ** The snapshot differ: [FileManager.compare_course_files] *)

Module FileManager.

(** A cell of a [pandas] row: an integer or a string (float and missing
    cells are outside the model). *)
Inductive cell :=
| CInt (z : Z)
| CStr (s : string).

#[export] Instance cell_eq_dec : EqDecision cell.
Proof. solve_decision. Defined.

#[export] Instance cell_countable : Countable cell.
Proof.
  refine (inj_countable'
    (fun c => match c with CInt z => inl z | CStr s => inr s end)
    (fun x => match x with inl z => CInt z | inr s => CStr s end) _).
  by intros [].
Defined.

(** [str(c)] *)
Definition cell_str (c : cell) : string :=
  match c with
  | CInt z => pretty z
  | CStr s => s
  end.

(** A row as [row.to_dict()] gives it, and a file on disk: either text
    that [pd.read_csv] rejects, or a table (its rows, top to bottom). *)
Abbreviation row := (gmap string cell).

Inductive csv_file :=
| Garbage
| Csv (df : list row).

Abbreviation filesystem := (gmap string csv_file).

(** [os.path.exists(name)] *)
Definition path_exists (fs : filesystem) (name : string) : bool :=
  bool_decide (is_Some (fs !! name)).

(** [pd.read_csv(name)] *)
Definition read_csv (fs : filesystem) (name : string) : result (list row) :=
  match fs !! name with
  | None => Err FileNotFoundError
  | Some Garbage => Err ParserError
  | Some (Csv df) => Ok df
  end.

(** [{row['CRN']: row.to_dict() for _, row in df.iterrows()}]: a later
    row replaces an earlier one with the same CRN; a row without the
    column raises [KeyError]. *)
Fixpoint index_by_crn (df : list row) (acc : gmap cell row)
  : result (gmap cell row) :=
  match df with
  | [] => Ok acc
  | r :: rest =>
      match r !! "CRN" with
      | None => Err (KeyError "CRN")
      | Some crn => index_by_crn rest (<[crn := r]> acc)
      end
  end.

(** [{'old': old_val, 'new': new_val}] *)
Record change := Change { old : string; new : string }.

Record change_record := ChangeRecord {
  CRN : cell;
  Subject : cell;
  Course_Number : cell;
  Title : cell;
  Section_ : cell;
  changes : list (string * change)
}.

Record CourseComparison := Comparison {
  added_courses : list row;
  removed_courses : list row;
  time_location_changes : list change_record;
  enrollment_changes : list change_record
}.

Definition empty_comparison : CourseComparison := Comparison [] [] [] [].

(** [str(course.get(field, 'N/A')).strip()] *)
Definition field_text (course : row) (field : string) : string :=
  strip (cell_str (default (CStr "N/A") (course !! field))).

Definition time_location_fields : list string :=
  ["Days"; "Time"; "Campus"; "Classroom"].

Definition enrollment_fields : list string :=
  ["Enrollment Actual"; "Enrollment Maximum"].

(** One round of the loop over [time_location_fields]; the state is
    [(time_location_changed, changes)]. *)
Definition time_location_step (old_course new_course : row)
    (st : bool * list (string * change)) (field : string)
  : bool * list (string * change) :=
  let old_val := field_text old_course field in
  let new_val := field_text new_course field in
  if bool_decide (old_val ≠ new_val)
  then (true, dict_set field (Change old_val new_val) st.2)
  else st.

(** One round of the loop over [enrollment_fields]. *)
Definition enrollment_step (old_course new_course : row)
    (st : bool * list (string * change)) (field : string)
  : bool * list (string * change) :=
  let old_val := field_text old_course field in
  let new_val := field_text new_course field in
  if bool_decide (old_val ≠ new_val) && bool_decide (old_val ≠ "N/A")
     && bool_decide (new_val ≠ "N/A")
  then (true, dict_set field (Change old_val new_val) st.2)
  else st.

Definition make_record (crn : cell) (new_course : row)
    (chs : list (string * change)) : change_record :=
  {| CRN := crn;
     Subject := default (CStr "") (new_course !! "Subject");
     Course_Number := default (CStr "") (new_course !! "Course Number");
     Title := default (CStr "") (new_course !! "Title");
     Section_ := default (CStr "") (new_course !! "Section");
     changes := chs |}.

(** The body of [for crn in common_crns]; the state is
    [(time_location_changes, enrollment_changes)]. *)
Definition compare_common (old_courses new_courses : gmap cell row)
    (st : list change_record * list change_record) (crn : cell)
  : list change_record * list change_record :=
  let old_course := old_courses !!! crn in
  let new_course := new_courses !!! crn in
  let '(time_location_changed, chs) :=
    foldl (time_location_step old_course new_course) (false, [])
          time_location_fields in
  let tl := if time_location_changed
            then st.1 ++ [make_record crn new_course chs] else st.1 in
  let '(enrollment_changed, enroll_changes) :=
    foldl (enrollment_step old_course new_course) (false, [])
          enrollment_fields in
  let en := if enrollment_changed
            then st.2 ++ [make_record crn new_course enroll_changes] else st.2 in
  (tl, en).

(** The three key sets of the differ. *)
Definition added_crns (old_courses new_courses : gmap cell row) : gset cell :=
  dom new_courses ∖ dom old_courses.

Definition removed_crns (old_courses new_courses : gmap cell row) : gset cell :=
  dom old_courses ∖ dom new_courses.

Definition common_crns (old_courses new_courses : gmap cell row) : gset cell :=
  dom old_courses ∩ dom new_courses.

(** The comparison of two keyed tables.  Python iterates over a [set] in
    an order it does not specify; [elements] fixes one. *)
Definition compare_tables (old_courses new_courses : gmap cell row)
  : CourseComparison :=
  let added := (fun crn => new_courses !!! crn)
                 <$> elements (added_crns old_courses new_courses) in
  let removed := (fun crn => old_courses !!! crn)
                   <$> elements (removed_crns old_courses new_courses) in
  let '(tl, en) :=
    foldl (compare_common old_courses new_courses) ([], [])
          (elements (common_crns old_courses new_courses)) in
  Comparison added removed tl en.

(** The [try] block. *)
Definition compare_body (fs : filesystem) (old_file new_file : string)
  : result CourseComparison :=
  old_df ← read_csv fs old_file;
  new_df ← read_csv fs new_file;
  old_courses ← index_by_crn old_df ∅;
  new_courses ← index_by_crn new_df ∅;
  mret (compare_tables old_courses new_courses).

Definition compare_course_files (fs : filesystem) (old_file new_file : string)
  : result CourseComparison :=
  if negb (path_exists fs old_file) then Ok empty_comparison
  else match compare_body fs old_file new_file with
       | Ok report => Ok report
       | Err _ => Ok empty_comparison
       end.

End FileManager.

(** ** The record normaliser of [BannerScraper] *)

Module Normalizer.

(** A raw course, a meeting time or a faculty entry: a dict of scalars. *)
Abbreviation pydict := (gmap string scalar).

(** One element of [meeting_data['fmt']]. *)
Record meeting := Meeting {
  meetingTime : pydict;               (* [meeting.get('meetingTime', {})] *)
  faculty : option (list pydict)      (* [None]: no ['faculty'] key *)
}.

(** [sep.join(items)]: every item has to be a [str]. *)
Fixpoint join (sep : string) (items : list scalar) : result string :=
  match items with
  | [] => Ok ""
  | [PStr s] => Ok s
  | PStr s :: rest => tail ← join sep rest; mret (s +:+ sep +:+ tail)
  | _ :: _ => Err TypeError
  end.

(** [a + b] where [b] is a [str]. *)
Definition add_str (a : scalar) (b : string) : result scalar :=
  match a with
  | PStr s => Ok (PStr (s +:+ b))
  | _ => Err TypeError
  end.

Definition format_credit_hours (course : pydict) : scalar * scalar * scalar :=
  let credit_low := get course "creditHourLow" (PStr "") in
  let credit_high := get course "creditHourHigh" (PStr "") in
  let formatted :=
    if truthy credit_low && truthy credit_high then
      if py_eq credit_low credit_high then credit_low
      else PStr (py_str credit_low +:+ "-" +:+ py_str credit_high)
    else if truthy credit_low then credit_low
    else if truthy credit_high then credit_high
    else PStr "TBA" in
  (credit_low, credit_high, formatted).

(** The dict literal [day_mapping], in its insertion order. *)
Definition day_mapping : list (string * string) :=
  [("monday", "M"); ("tuesday", "T"); ("wednesday", "W"); ("thursday", "R");
   ("friday", "F"); ("saturday", "S"); ("sunday", "U")].

(** The loop filling [active_days]. *)
Definition active_days (meeting_time : pydict) : list string :=
  foldl (fun acc '(day, abbrev) =>
           if truthy (get meeting_time day (PBool false))
           then acc ++ [abbrev] else acc)
        [] day_mapping.

Definition extract_days_of_week (meeting_time : pydict) : scalar :=
  if bool_decide (meeting_time = ∅) then PStr "TBA"
  else
    let active := active_days meeting_time in
    if bool_decide (active ≠ [])
    then PStr (String.concat "" active)
    else get meeting_time "meetingTimeType" (PStr "TBA").

(** [building_description], else [building], else the empty string. *)
Definition building_str (meeting_time : pydict) : scalar :=
  let building := get meeting_time "building" (PStr "") in
  let building_description := get meeting_time "buildingDescription" (PStr "") in
  if truthy building_description then building_description
  else if truthy building then building
  else PStr "".

(** [time_str] of [format_meeting_times]; [dflt] is its initial value. *)
Definition time_range (meeting_time : pydict) (dflt : scalar) : result scalar :=
  let begin_time := get meeting_time "beginTime" (PStr "") in
  let end_time := get meeting_time "endTime" (PStr "") in
  if truthy begin_time then
    if truthy end_time then add_str begin_time (" - " +:+ py_str end_time)
    else Ok begin_time
  else Ok dflt.

(** [sep.join(filter(lambda x: x != 'TBA', values)) or 'TBA'] *)
Definition join_known (values : list scalar) : result string :=
  joined ← join "; " (filter (fun x => py_eq x (PStr "TBA") = false) values);
  mret (if String.eqb joined "" then "TBA" else joined).

Record meeting_components := Components {
  mc_days : string;
  mc_time : string;
  mc_campus : string;
  mc_classroom : string
}.

(** One round of the loop of [parse_meeting_times_for_csv]; the state is
    [(all_days, all_times, all_campuses, all_classrooms)]. *)
Definition csv_meeting_step
    (st : list scalar * list scalar * list scalar * list scalar) (m : meeting)
  : result (list scalar * list scalar * list scalar * list scalar) :=
  let '(all_days, all_times, all_campuses, all_classrooms) := st in
  let meeting_time := meetingTime m in
  let days := extract_days_of_week meeting_time in
  time_str ← time_range meeting_time (PStr "TBA");
  let campus := get meeting_time "campus" (PStr "") in
  let room := get meeting_time "room" (PStr "") in
  let bstr := building_str meeting_time in
  let classroom :=
    if truthy bstr && truthy room then PStr (py_str bstr +:+ " " +:+ py_str room)
    else if truthy bstr then bstr
    else if truthy room then room
    else PStr "TBA" in
  mret (all_days ++ [days], all_times ++ [time_str],
        all_campuses ++ [if truthy campus then campus else PStr "TBA"],
        all_classrooms ++ [classroom]).

Fixpoint csv_meeting_loop
    (st : list scalar * list scalar * list scalar * list scalar)
    (fmt : list meeting)
  : result (list scalar * list scalar * list scalar * list scalar) :=
  match fmt with
  | [] => Ok st
  | m :: rest => st' ← csv_meeting_step st m; csv_meeting_loop st' rest
  end.

(** [meeting_data] is [None] for an empty dict or one without ['fmt']. *)
Definition parse_meeting_times_for_csv (meeting_data : option (list meeting))
  : result meeting_components :=
  match meeting_data with
  | None => Ok (Components "TBA" "TBA" "TBA" "TBA")
  | Some fmt =>
      '(all_days, all_times, all_campuses, all_classrooms) ←
        csv_meeting_loop ([], [], [], []) fmt;
      d ← join_known all_days;
      t ← join_known all_times;
      c ← join_known all_campuses;
      r ← join_known all_classrooms;
      mret (Components d t c r)
  end.

(** The string built for one meeting by [format_meeting_times]. *)
Definition format_one_meeting (m : meeting) : result scalar :=
  let meeting_time := meetingTime m in
  let days := extract_days_of_week meeting_time in
  time_str ← time_range meeting_time (PStr "");
  let campus := get meeting_time "campus" (PStr "") in
  let room := get meeting_time "room" (PStr "") in
  let bstr := building_str meeting_time in
  let location_parts :=
    (if truthy campus then [PStr (py_str campus +:+ " |")] else []) ++
    (if truthy bstr then
       if truthy room then [PStr (py_str bstr +:+ " " +:+ py_str room)]
       else [bstr]
     else if truthy room then [room] else []) in
  location ← (if bool_decide (location_parts ≠ [])
              then join ", " location_parts else Ok "TBA");
  let meeting_parts :=
    (if truthy days then [days] else []) ++
    (if truthy time_str then [time_str] else []) ++
    (if String.eqb location "TBA" then [] else [PStr location]) in
  if bool_decide (meeting_parts ≠ [])
  then meeting_str ← join " | " meeting_parts; mret (PStr meeting_str)
  else Ok (PStr "TBA").

Fixpoint format_meetings (fmt : list meeting) : result (list scalar) :=
  match fmt with
  | [] => Ok []
  | m :: rest =>
      s ← format_one_meeting m; tail ← format_meetings rest; mret (s :: tail)
  end.

Definition format_meeting_times (meeting_data : option (list meeting))
  : result string :=
  match meeting_data with
  | None => Ok "TBA"
  | Some fmt =>
      meetings ← format_meetings fmt;
      if bool_decide (meetings ≠ []) then join "; " meetings else Ok "TBA"
  end.

(** [name not in instructors] compares with [==]. *)
Definition py_in (x : scalar) (l : list scalar) : bool :=
  existsb (py_eq x) l.

Definition extract_instructor (meeting_data : option (list meeting))
  : result string :=
  match meeting_data with
  | None => Ok "TBA"
  | Some fmt =>
      let instructors :=
        foldl (fun acc m =>
                 match faculty m with
                 | None => acc
                 | Some fs =>
                     foldl (fun acc f =>
                              let name := get f "displayName" (PStr "TBA") in
                              if py_in name acc then acc else acc ++ [name])
                           acc fs
                 end)
              [] fmt in
      if bool_decide (instructors ≠ []) then join "; " instructors else Ok "TBA"
  end.

End Normalizer.

(** ** Enrollment detail: [parse_enrollment_html], [parse_enrollment_regex] *)

Module Enrollment.

Definition enrollment_keys : list string :=
  ["enrollment_actual"; "enrollment_maximum"; "enrollment_seats_available";
   "waitlist_capacity"; "waitlist_actual"; "waitlist_seats_available"].

(** The dict literal both parsers start from. *)
Definition default_enrollment : gmap string scalar :=
  list_to_map ((fun k => (k, PStr "N/A")) <$> enrollment_keys).

(** The [if]/[elif] chain mapping a lower-cased label to a key. *)
Definition label_key (label : string) : option string :=
  if contains "enrollment actual" label then Some "enrollment_actual"
  else if contains "enrollment maximum" label then Some "enrollment_maximum"
  else if contains "enrollment seats available" label
       then Some "enrollment_seats_available"
  else if contains "waitlist capacity" label then Some "waitlist_capacity"
  else if contains "waitlist actual" label then Some "waitlist_actual"
  else if contains "waitlist seats available" label
       then Some "waitlist_seats_available"
  else None.

Definition dquote : string := String "034"%char EmptyString.

(** The regular expression of a label, as in the dict [patterns]. *)
Definition pattern_for (label : string) : string :=
  label +:+ ":.*?<span dir=" +:+ dquote +:+ "ltr" +:+ dquote
        +:+ ">\s*(\d+)\s*</span>".

Definition patterns : list (string * string) :=
  [("enrollment_actual", pattern_for "Enrollment Actual");
   ("enrollment_maximum", pattern_for "Enrollment Maximum");
   ("enrollment_seats_available", pattern_for "Enrollment Seats Available");
   ("waitlist_capacity", pattern_for "Waitlist Capacity");
   ("waitlist_actual", pattern_for "Waitlist Actual");
   ("waitlist_seats_available", pattern_for "Waitlist Seats Available")].

Section Parsers.

(** The two library calls are taken as given.
    [find_status_spans html] stands for
    [BeautifulSoup(html, 'html.parser').find_all('span', class_='status-bold')]:
    for each span found, its [get_text(strip=True)] and, when
    [find_next_sibling('span', attrs={'dir': 'ltr'})] finds one, that
    sibling's [get_text(strip=True)]; [Err] when the library raises.
    [re_search pattern text] stands for
    [re.search(pattern, text, re.IGNORECASE | re.DOTALL)] followed by
    [group(1)]. *)
Variable find_status_spans : string → result (list (string * option string)).
Variable re_search : string → string → option string.

(** One round of [for key, pattern in patterns.items()]. *)
Definition regex_step (html_content : string) (enrollment_info : gmap string scalar)
    (kp : string * string) : gmap string scalar :=
  match re_search kp.2 html_content with
  | Some group1 => <[kp.1 := PStr group1]> enrollment_info
  | None => enrollment_info
  end.

Definition parse_enrollment_regex (html_content : string) : gmap string scalar :=
  if String.eqb html_content "" then default_enrollment
  else foldl (regex_step html_content) default_enrollment patterns.

(** One round of [for span in status_spans]. *)
Definition span_step (enrollment_info : gmap string scalar)
    (span : string * option string) : gmap string scalar :=
  let label := lower span.1 in
  match span.2 with
  | Some value =>
      match label_key label with
      | Some key => <[key := PStr value]> enrollment_info
      | None => enrollment_info
      end
  | None => enrollment_info
  end.

(** The dict after the loop over the spans (the structural parse). *)
Definition structural_parse (spans : list (string * option string))
  : gmap string scalar :=
  foldl span_step default_enrollment spans.

Definition parse_enrollment_html (html_content : string) : gmap string scalar :=
  if String.eqb html_content "" then default_enrollment
  else
    match find_status_spans html_content with
    | Ok status_spans =>
        let enrollment_info := structural_parse status_spans in
        if py_eq (enrollment_info !!! "enrollment_actual") (PStr "N/A")
        then parse_enrollment_regex html_content
        else enrollment_info
    | Err _ => parse_enrollment_regex html_content
    end.

End Parsers.

End Enrollment.

(** ** Effects: requests sent, time slept, lines logged *)

Module Net.

Inductive http_method := GET | POST.

(** A request of the session: [params=] of a GET, [data=] of a POST. *)
Record request := Request {
  meth : http_method;
  url : string;
  params : list (string * scalar)
}.

(** A decoded JSON object: its scalar members, and the two array members
    the scraper reads, [data] (raw courses) and [fmt] (meetings). *)
Record json_object := JsonObject {
  members : gmap string scalar;
  data : option (list Normalizer.pydict);
  fmt : option (list Normalizer.meeting)
}.

Inductive body :=
| NotJson (text : string)
| Json (obj : json_object).

Record response := Response {
  status_code : Z;
  content : body
}.

(** What [session.get]/[session.post] can raise. *)
Inductive failure := ConnectionFailed | TimedOut | BadURL.

Definition exn_of_failure (f : failure) : exn :=
  match f with
  | ConnectionFailed => ConnectionError
  | TimedOut => Timeout
  | BadURL => InvalidURL
  end.

Inductive reply :=
| Fails (f : failure)
| Replies (r : response).

Inductive level := INFO | WARNING | ERROR.

(** What a run leaves behind, in order: the requests of the session, the
    calls of [time.sleep], and, of the log, the lines that
    [scrape_course_schedule] itself writes at level INFO or above (the log
    lines of the other methods are not recorded). *)
Inductive event :=
| Sent (r : request)
| Slept (milliseconds : Z)
| Logged (lvl : level) (msg : string).

(** The remote service: its reply to a request after a given history. *)
Abbreviation service := (list event → request → reply).

(** The outcome of a computation: a value, an exception, or still running
    when the fuel of a loop is used up. *)
Inductive outcome (A : Type) :=
| Done (a : A)
| Raised (e : exn)
| Running.
Arguments Done {A} a.
Arguments Raised {A} e.
Arguments Running {A}.

(** A computation reads the history and yields an outcome and the events
    it adds. *)
Definition M (A : Type) : Type := list event → outcome A * list event.

#[export] Instance M_ret : MRet M := fun A a _ => (Done a, []).
#[export] Instance M_bind : MBind M := fun A B f m h =>
  match m h with
  | (Done a, es) => let '(r, es') := f a (h ++ es) in (r, es ++ es')
  | (Raised e, es) => (Raised e, es)
  | (Running, es) => (Running, es)
  end.

Definition raise {A} (e : exn) : M A := fun _ => (Raised e, []).
Definition out_of_fuel {A} : M A := fun _ => (Running, []).
Definition emit (e : event) : M unit := fun _ => (Done (), [e]).

(** [try: m except E: handler], for the exception classes [catches]. *)
Definition try_except {A} (m : M A) (catches : exn → bool) (handler : exn → M A)
  : M A := fun h =>
  match m h with
  | (Raised e, es) =>
      if catches e
      then let '(r, es') := handler e (h ++ es) in (r, es ++ es')
      else (Raised e, es)
  | other => other
  end.

(** A pure call that may raise. *)
Definition lift {A} (r : result A) : M A :=
  match r with
  | Ok a => mret a
  | Err e => raise e
  end.

Definition sleep (milliseconds : Z) : M unit := emit (Slept milliseconds).
Definition log (lvl : level) (msg : string) : M unit := emit (Logged lvl msg).

Definition send (net : service) (r : request) : M response := fun h =>
  match net h r with
  | Fails f => (Raised (exn_of_failure f), [Sent r])
  | Replies resp => (Done resp, [Sent r])
  end.

(** [response.raise_for_status()] *)
Definition raise_for_status (r : response) : M unit :=
  if (400 <=? status_code r) && (status_code r <? 600)
  then raise (HTTPError (status_code r)) else mret ().

(** [response.json()] *)
Definition json (r : response) : M json_object :=
  match content r with
  | Json obj => mret obj
  | NotJson _ => raise JSONDecodeError
  end.

(** [response.text] of a body that is not JSON. *)
Definition text_of (r : response) : string :=
  match content r with
  | NotJson t => t
  | Json _ => ""
  end.

End Net.

(** ** The scraping pipeline of [BannerScraper] *)

Module BannerScraper.
Import Net Normalizer.

Definition base_url : string :=
  "https://nubanner.neu.edu/StudentRegistrationSsb/ssb".
Definition class_search_url : string := base_url +:+ "/classSearch/classSearch".
Definition term_selection_url : string :=
  base_url +:+ "/term/termSelection?mode=search".
Definition term_search_url : string := base_url +:+ "/term/search".
Definition search_results_url : string :=
  base_url +:+ "/searchResults/searchResults".
Definition meeting_times_url : string :=
  base_url +:+ "/searchResults/getFacultyMeetingTimes".
Definition enrollment_info_url : string :=
  base_url +:+ "/searchResults/getEnrollmentInfo".
Definition null_forward : string := "/StudentRegistrationSsb/ssb/null/null".

(** The query of one page of [search_courses]. *)
Definition search_request (term_code : string) (page_max_size page_offset : Z)
  : request :=
  Request GET search_results_url
    [("txt_subject", PStr ""); ("txt_courseNumber", PStr "");
     ("txt_term", PStr term_code); ("txt_campus", PStr "OAK");
     ("startDatepicker", PStr ""); ("endDatepicker", PStr "");
     ("pageOffset", PInt page_offset); ("pageMaxSize", PInt page_max_size);
     ("sortColumn", PStr "subjectDescription"); ("sortDirection", PStr "asc")].

Definition term_request (term_code : string) : request :=
  Request POST term_search_url [("term", PStr term_code)].

(** [result.get('success', False) or 'regAllowed' in result] *)
Definition grants (result : json_object) : bool :=
  truthy (get (members result) "success" (PBool false))
  || bool_decide (is_Some (members result !! "regAllowed")).

Record CourseSection := {
  course_reference_number : scalar;
  subject : scalar;
  course_number : scalar;
  title : scalar;
  section : scalar;
  instructor : string;
  meeting_times : string;
  days : string;
  time : string;
  campus : string;
  classroom : string;
  enrollment_info : gmap string scalar;
  credit_hour_low : scalar;
  credit_hour_high : scalar;
  credits_formatted : scalar;
  instructional_method : scalar
}.

(** How one round of the [while True] loop of [search_courses] ends. *)
Inductive page_step :=
| Break (all_courses : list pydict)
| Continue (all_courses : list pydict) (page_offset : Z).

Section Scraper.

Variable net : service.
Variable find_status_spans : string → result (list (string * option string)).
Variable re_search : string → string → option string.

(** The handler [except ValueError] of [authorize_session] reads the
    variable [response]: the last response bound when the exception was
    raised. *)
Definition on_ValueError (response : response) (m : M bool) : M bool :=
  try_except m is_ValueError (fun _ => mret (status_code response =? 200)).

(** The branch [elif 'fwdURL' in result]. *)
Definition follow_forward (term_code : string) (fwd_url : scalar) : M bool :=
  if truthy fwd_url && negb (py_eq fwd_url (PStr null_forward)) then
    match fwd_url with
    | PStr fwd =>
        let fwd := if String.prefix "http" fwd then fwd
                   else "https://nubanner.neu.edu" +:+ fwd in
        response ← send net (Request GET fwd []);
        on_ValueError response (
          raise_for_status response;;
          response ← send net (term_request term_code);
          on_ValueError response (
            result ← json response;
            if grants result then mret true else mret false))
    | _ => raise AttributeError      (* [fwd_url.startswith] on a non-string *)
    end
  else
    response ← send net (Request GET class_search_url []);
    if status_code response =? 200 then mret true else mret false.

Definition authorize_session (term_code : string) : M bool :=
  try_except (
    response ← send net (Request GET class_search_url []);
    raise_for_status response;;
    response ← send net (Request GET term_selection_url []);
    raise_for_status response;;
    response ← send net (term_request term_code);
    raise_for_status response;;
    on_ValueError response (
      result ← json response;
      if truthy (get (members result) "success" (PBool false)) then mret true
      else if bool_decide (is_Some (members result !! "regAllowed")) then mret true
      else match members result !! "fwdURL" with
           | Some fwd_url => follow_forward term_code fwd_url
           | None => mret false
           end))
    is_RequestException (fun _ => mret false).

(** One round of the loop of [search_courses], after [page_count += 1]. *)
Definition fetch_page (term_code : string) (page_max_size : Z)
    (max_pages : option Z) (all_courses : list pydict)
    (page_offset page_count : Z) : M page_step :=
  try_except (
    response ← send net (search_request term_code page_max_size page_offset);
    raise_for_status response;;
    result ← json response;
    if truthy (get (members result) "success" (PBool false)) then
      let courses := default [] (data result) in
      if bool_decide (courses = []) then mret (Break all_courses)
      else
        let all_courses := all_courses ++ courses in
        if bool_decide (default 0 max_pages ≠ 0)
           && (default 0 max_pages <=? page_count)
        then mret (Break all_courses)
        else if Z.of_nat (length courses) <? page_max_size
        then mret (Break all_courses)
        else sleep 500;; mret (Continue all_courses (page_offset + page_max_size))
    else mret (Break all_courses))
    is_RequestException (fun _ => mret (Break all_courses)).

Fixpoint search_loop (fuel : nat) (term_code : string) (page_max_size : Z)
    (max_pages : option Z) (all_courses : list pydict)
    (page_offset page_count : Z) : M (list pydict) :=
  match fuel with
  | O => out_of_fuel
  | S fuel =>
      let page_count := page_count + 1 in
      step ← fetch_page term_code page_max_size max_pages all_courses
                        page_offset page_count;
      match step with
      | Break all_courses => mret all_courses
      | Continue all_courses page_offset =>
          search_loop fuel term_code page_max_size max_pages all_courses
                      page_offset page_count
      end
  end.

(** The parameter [campus] is not used by the code: the query always
    carries ['OAK']. *)
Definition search_courses (fuel : nat) (term_code campus : string)
    (page_max_size : Z) (max_pages : option Z) : M (list pydict) :=
  search_loop fuel term_code page_max_size max_pages [] 0 0.

Definition empty_object : json_object := JsonObject ∅ None None.

Definition get_meeting_times (term_code : string) (crn : scalar) : M json_object :=
  try_except (
    response ← send net (Request GET meeting_times_url
                           [("term", PStr term_code);
                            ("courseReferenceNumber", crn)]);
    raise_for_status response;;
    json response)
    is_RequestException (fun _ => mret empty_object).

(** The first member, in the order [map_to_list] fixes, that is a string
    containing ['<span'] (Python takes the first in insertion order). *)
Definition html_member (obj : json_object) : option string :=
  head (omap (fun kv => match kv.2 with
                        | PStr s => if contains "<span" s then Some s else None
                        | _ => None
                        end)
             (map_to_list (members obj))).

Definition get_enrollment_info (term_code : string) (crn : scalar)
  : M (gmap string scalar) :=
  try_except (
    response ← send net (Request POST enrollment_info_url
                           [("term", PStr term_code);
                            ("courseReferenceNumber", crn)]);
    raise_for_status response;;
    try_except (
      json_response ← json response;
      match html_member json_response with
      | Some html_content =>
          if String.eqb html_content "" then mret (members json_response)
          else mret (Enrollment.parse_enrollment_html
                       find_status_spans re_search html_content)
      | None => mret (members json_response)
      end)
      is_ValueError
      (fun _ => mret (Enrollment.parse_enrollment_html
                        find_status_spans re_search (text_of response))))
    is_RequestException (fun _ => mret ∅).

(** The loop [for attempt in range(3)]; [attempts] is what is left of the
    range.  Returns [auth_success]. *)
Fixpoint authorize_with_retries (term_code : string) (attempts : list Z)
  : M bool :=
  match attempts with
  | [] => mret false
  | attempt :: rest =>
      log INFO ("Attempting to authorize session (attempt "
                +:+ pretty (attempt + 1) +:+ "/3)");;
      ok ← authorize_session term_code;
      if (ok : bool) then mret true
      else
        log WARNING ("Authorization attempt " +:+ pretty (attempt + 1)
                     +:+ " failed");;
        sleep 2000;;
        authorize_with_retries term_code rest
  end.

(** The body of the enrichment loop for the [i]-th of [total] courses. *)
Definition enrich_course (term_code : string) (i total : Z) (course : pydict)
  : M CourseSection :=
  let crn := get course "courseReferenceNumber" (PStr "") in
  let subject := get course "subject" (PStr "") in
  let course_num := get course "courseNumber" (PStr "") in
  let instructional_method :=
    get course "instructionalMethodDescription" (PStr "TBA") in
  (if (i mod 10 =? 0) || (i =? total)
   then log INFO ("Processing course " +:+ pretty i +:+ "/" +:+ pretty total
                  +:+ ": " +:+ py_str subject +:+ " " +:+ py_str course_num)
   else mret ());;
  meeting_data ← get_meeting_times term_code crn;
  meeting_times ← lift (format_meeting_times (fmt meeting_data));
  meeting_components ← lift (parse_meeting_times_for_csv (fmt meeting_data));
  enrollment_data ← get_enrollment_info term_code crn;
  instructor ← lift (extract_instructor (fmt meeting_data));
  let '(credit_low, credit_high, credits_formatted) :=
    format_credit_hours course in
  sleep 200;;
  mret {| course_reference_number := crn;
          subject := subject;
          course_number := course_num;
          title := get course "courseTitle" (PStr "TBA");
          section := get course "sequenceNumber" (PStr "TBA");
          instructor := instructor;
          meeting_times := meeting_times;
          days := mc_days meeting_components;
          time := mc_time meeting_components;
          campus := mc_campus meeting_components;
          classroom := mc_classroom meeting_components;
          enrollment_info := enrollment_data;
          credit_hour_low := credit_low;
          credit_hour_high := credit_high;
          credits_formatted := credits_formatted;
          instructional_method := instructional_method |}.

(** [for i, course in enumerate(all_courses, 1)] *)
Fixpoint enrich_loop (term_code : string) (i total : Z)
    (courses : list pydict) (enriched_courses : list CourseSection)
  : M (list CourseSection) :=
  match courses with
  | [] => mret enriched_courses
  | course :: rest =>
      course_section ← enrich_course term_code i total course;
      enrich_loop term_code (i + 1) total rest
                  (enriched_courses ++ [course_section])
  end.

Definition scrape_course_schedule (fuel : nat) (term_code campus : string)
    (page_max_size : Z) (max_pages : option Z) : M (list CourseSection) :=
  auth_success ← authorize_with_retries term_code [0; 1; 2];
  if negb (auth_success : bool) then
    log ERROR "Failed to authorize session after 3 attempts";;
    mret ([] : list CourseSection)
  else
    log INFO ("Starting course search for campus: " +:+ campus);;
    courses ← search_courses fuel term_code campus page_max_size max_pages;
    let all_courses := [] ++ courses in
    log INFO ("Found " +:+ pretty (Z.of_nat (length all_courses))
              +:+ " total courses. Starting data enrichment...");;
    enriched_courses ←
      enrich_loop term_code 1 (Z.of_nat (length all_courses)) all_courses [];
    log INFO ("Data enrichment complete. Successfully processed "
              +:+ pretty (Z.of_nat (length enriched_courses))
              +:+ " course sections");;
    mret enriched_courses.

End Scraper.

End BannerScraper.

(** ** Vocabulary of the statements *)

Import FileManager Normalizer Enrollment Net BannerScraper.

(** *** Differ *)

(** A snapshot file read and keyed by CRN, as the [try] block does it. *)
Definition load (fs : gmap string csv_file) (name : string)
  : result (gmap cell row) :=
  df ← read_csv fs name; index_by_crn df ∅.

(** The report for two keyed snapshots, or for a failed load. *)
Definition report_of (old_courses new_courses : result (gmap cell row))
  : CourseComparison :=
  match old_courses, new_courses with
  | Ok old_courses, Ok new_courses => compare_tables old_courses new_courses
  | _, _ => empty_comparison
  end.

Definition swap_change (c : change) : change := Change (new c) (old c).

Definition swap_changes (chs : list (string * change)) : list (string * change) :=
  prod_map id swap_change <$> chs.

(** What a change record says about which course. *)
Definition keyed_changes (rec : change_record) : cell * list (string * change) :=
  (CRN rec, changes rec).

Definition swapped_records (l' l : list change_record) : Prop :=
  keyed_changes <$> l' = (prod_map id swap_changes ∘ keyed_changes) <$> l.

(** The records one common CRN contributes to the two change lists. *)
Definition time_location_part (old_courses new_courses : gmap cell row)
    (crn : cell) : list change_record :=
  let '(changed, chs) :=
    foldl (time_location_step (old_courses !!! crn) (new_courses !!! crn))
          (false, []) time_location_fields in
  if changed then [make_record crn (new_courses !!! crn) chs] else [].

Definition enrollment_part (old_courses new_courses : gmap cell row)
    (crn : cell) : list change_record :=
  let '(changed, chs) :=
    foldl (enrollment_step (old_courses !!! crn) (new_courses !!! crn))
          (false, []) enrollment_fields in
  if changed then [make_record crn (new_courses !!! crn) chs] else [].

(** *** Normaliser *)


Definition day_flag (meeting_time : pydict) (day : string) : bool :=
  truthy (get meeting_time day (PBool false)).

(** The codes of the days whose flag is set, in the order of [day_mapping]. *)
Definition set_day_codes (meeting_time : pydict) : list string :=
  snd <$> filter (λ da, day_flag meeting_time da.1 = true) day_mapping.

(** *** Enrollment detail *)

(** The value a span contributes to [key], if any. *)
Definition span_value (key : string) (span : string * option string)
  : option string :=
  match span.2, label_key (lower span.1) with
  | Some value, Some k => if decide (k = key) then Some value else None
  | _, _ => None
  end.

(** The values of the label/value pairs found for [key], in document order. *)
Definition labelled_values (spans : list (string * option string)) (key : string)
  : list string :=
  omap (span_value key) spans.

(** *** Traces *)

(** Every event a computation adds satisfies [P], whatever the history. *)
Definition emits {A} (P : event → Prop) (m : M A) : Prop :=
  ∀ h, Forall P (m h).2.

(** Events of one authorization attempt: requests without a query, and the
    term declaration. *)
Definition auth_event (term_code : string) (e : event) : Prop :=
  ∃ r, e = Sent r ∧ (params r = [] ∨ r = term_request term_code).

Definition attempt_log (attempt : Z) : event :=
  Logged INFO ("Attempting to authorize session (attempt "
               +:+ pretty (attempt + 1) +:+ "/3)").

Definition failure_log (attempt : Z) : event :=
  Logged WARNING ("Authorization attempt " +:+ pretty (attempt + 1) +:+ " failed").

Definition abort_log : event :=
  Logged ERROR "Failed to authorize session after 3 attempts".

(** The line that opens an authorization attempt. *)
Definition is_attempt_log (e : event) : bool :=
  match e with
  | Logged INFO msg => String.prefix "Attempting to authorize session" msg
  | _ => false
  end.

(** The warning that closes a failed attempt. *)
Definition is_failure_log (e : event) : bool :=
  match e with
  | Logged WARNING msg => String.prefix "Authorization attempt" msg
  | _ => false
  end.

(** A query for a page of search results. *)
Definition is_search_request (e : event) : bool :=
  match e with
  | Sent r =>
      bool_decide (url r = search_results_url ∧ "pageOffset" ∈ (params r).*1)
  | _ => false
  end.

Definition not_search (e : event) : Prop := is_search_request e = false.

Definition quiet (e : event) : Prop :=
  is_attempt_log e = false ∧ is_failure_log e = false.

Definition count (p : event → bool) (es : list event) : nat :=
  length (filter (λ e, p e = true) es).

(** Every failure warning of the trace is directly followed by a sleep of
    two seconds. *)
Fixpoint well_delayed (es : list event) : bool :=
  match es with
  | [] => true
  | e :: rest =>
      if is_failure_log e
      then match rest with
           | Slept 2000 :: _ => well_delayed rest
           | _ => false
           end
      else well_delayed rest
  end.

(** The rows of a successful page: the reply has no error status, its body
    is JSON, and the success flag is set. *)
Definition page_rows (r : reply) : option (list pydict) :=
  match r with
  | Replies resp =>
      if (400 <=? status_code resp) && (status_code resp <? 600) then None
      else match content resp with
           | Json obj =>
               if truthy (get (members obj) "success" (PBool false))
               then Some (default [] (data obj)) else None
           | NotJson _ => None
           end
  | Fails _ => None
  end.

(** The page-count ceiling is reached once [fetched] pages have been
    fetched; there is none for [None] and for [0]. *)
Definition ceiling_reached (max_pages : option Z) (fetched : Z) : Prop :=
  match max_pages with
  | Some m => m ≠ 0 ∧ m ≤ fetched
  | None => False
  end.

#[local] Instance ceiling_reached_dec mp c : Decision (ceiling_reached mp c).
Proof. destruct mp; apply _. Defined.

(** The rows brought by the requests of a trace, in the order of the trace. *)
Fixpoint fetched_rows (net : service) (h es : list event) : list pydict :=
  match es with
  | [] => []
  | e :: es' =>
      match e with
      | Sent r => default [] (page_rows (net h r))
      | _ => []
      end ++ fetched_rows net (h ++ [e]) es'
  end.

(** *** Sample inputs *)

Module Samples.

Definition section_100_old : row :=
  list_to_map [("CRN", CInt 100); ("Days", CStr "MW"); ("Time", CStr "1000-1100")].
Definition section_100_new : row :=
  list_to_map [("CRN", CInt 100); ("Days", CStr "TR"); ("Time", CStr "1000-1100")].
Definition section_200 : row :=
  list_to_map [("CRN", CInt 200); ("Days", CStr "F");
               ("Enrollment Actual", CInt 12); ("Enrollment Maximum", CStr "N/A")].
Definition section_200_new : row :=
  list_to_map [("CRN", CInt 200); ("Days", CStr "F");
               ("Enrollment Actual", CInt 15); ("Enrollment Maximum", CInt 30)].
Definition no_crn : row := list_to_map [("Days", CStr "MW")].

Definition disk : gmap string csv_file :=
  list_to_map [("courses_OLD.csv", Csv [section_100_old; section_200]);
               ("courses.csv", Csv [section_100_new]);
               ("enrolled.csv", Csv [section_100_old; section_200_new]);
               ("broken.csv", Garbage);
               ("headless.csv", Csv [no_crn])].

Definition variable_credit : pydict :=
  list_to_map [("creditHourLow", PInt 1); ("creditHourHigh", PInt 4)].
Definition literal_TBA : pydict :=
  list_to_map [("creditHourLow", PStr "TBA"); ("creditHourHigh", PStr "TBA")].

Definition page_of (n : nat) : reply :=
  Replies (Response 200
             (Json (JsonObject {[ "success" := PBool true ]}
                               (Some (replicate n ∅)) None))).

(** Two full pages of two rows, then a page of one row. *)
Definition three_pages : service :=
  λ h _, if decide (length h < 3)%nat then page_of 2 else page_of 1.

(** Every page is successful and has no rows. *)
Definition empty_pages : service := λ _ _, page_of 0.

(** The service cannot be reached. *)
Definition unreachable : service := λ _ _, Fails ConnectionFailed.

Definition no_spans : string → result (list (string * option string)) :=
  λ _, Ok [].
Definition no_match : string → string → option string := λ _ _, None.

(** A fragment with two label/value pairs, and one that lacks the pair of
    the actual enrollment. *)
Definition spans_with_actual : string → result (list (string * option string)) :=
  λ _, Ok [("Enrollment Actual:", Some "25"); ("Enrollment Maximum:", Some "30")].
Definition spans_without_actual
  : string → result (list (string * option string)) :=
  λ _, Ok [("Enrollment Maximum:", Some "30")].

(** Only the pattern of the actual enrollment matches. *)
Definition match_actual : string → string → option string :=
  λ pattern _, if String.prefix "Enrollment Actual" pattern then Some "7" else None.

End Samples.

(** ** Proofs *)

#[local] Set Warnings "-clear-no-such-hyp".

(** *** The snapshot differ *)

Section dict.
Context {V W : Type}.

Lemma dict_set_fmap (f : V → W) key v (d : list (string * V)) :
  dict_set key (f v) (prod_map id f <$> d) = prod_map id f <$> dict_set key v d.
Proof.
  induction d as [|[k w] d IH]; csimpl; [done|].
  destruct (String.eqb k key); csimpl; [done|]. by rewrite IH.
Qed.

End dict.

Lemma time_location_fold_swap o n fields b acc :
  foldl (time_location_step n o) (b, swap_changes acc) fields =
  prod_map id swap_changes (foldl (time_location_step o n) (b, acc) fields).
Proof.
  revert b acc. induction fields as [|f fields IH]; intros b acc; simpl; [done|].
  unfold time_location_step at 2 4. simpl.
  destruct (decide (field_text o f = field_text n f)) as [E|E].
  - rewrite !bool_decide_eq_false_2 by (by rewrite ?E; intros ?; congruence). apply IH.
  - rewrite !bool_decide_eq_true_2 by congruence.
    rewrite <- IH. f_equal. f_equal. unfold swap_changes.
    by rewrite <- dict_set_fmap.
Qed.

Lemma enrollment_fold_swap o n fields b acc :
  foldl (enrollment_step n o) (b, swap_changes acc) fields =
  prod_map id swap_changes (foldl (enrollment_step o n) (b, acc) fields).
Proof.
  revert b acc. induction fields as [|f fields IH]; intros b acc; simpl; [done|].
  unfold enrollment_step at 2 4. simpl.
  assert ((bool_decide (field_text n f ≠ field_text o f) && bool_decide (field_text n f ≠ "N/A")
     && bool_decide (field_text o f ≠ "N/A")) = (bool_decide (field_text o f ≠ field_text n f) && bool_decide (field_text o f ≠ "N/A")
     && bool_decide (field_text n f ≠ "N/A"))) as ->.
  { repeat case_bool_decide; simpl; congruence. }
  destruct (_ && _ && _).
  - rewrite <- IH. f_equal. f_equal. unfold swap_changes. by rewrite <- dict_set_fmap.
  - apply IH.
Qed.

Lemma compare_common_swap O N st st' crn :
  swapped_records st'.1 st.1 → swapped_records st'.2 st.2 →
  swapped_records (compare_common N O st' crn).1 (compare_common O N st crn).1 ∧
  swapped_records (compare_common N O st' crn).2 (compare_common O N st crn).2.
Proof.
  intros H1 H2. unfold compare_common.
  pose proof (time_location_fold_swap (O !!! crn) (N !!! crn)
                time_location_fields false []) as Ht.
  pose proof (enrollment_fold_swap (O !!! crn) (N !!! crn)
                enrollment_fields false []) as He.
  change (swap_changes []) with (@nil (string * change)) in Ht, He.
  rewrite Ht, He. clear Ht He.
  destruct (foldl (time_location_step (O !!! crn) (N !!! crn)) _ _) as [b chs].
  destruct (foldl (enrollment_step (O !!! crn) (N !!! crn)) _ _) as [b' chs'].
  unfold swapped_records in *. cbn [prod_map fst snd id]. split.
  - destruct b; [|exact H1]. rewrite !fmap_app, H1. done.
  - destruct b'; [|exact H2]. rewrite !fmap_app, H2. done.
Qed.

Lemma compare_fold_swap O N l st st' :
  swapped_records st'.1 st.1 → swapped_records st'.2 st.2 →
  swapped_records (foldl (compare_common N O) st' l).1 (foldl (compare_common O N) st l).1 ∧
  swapped_records (foldl (compare_common N O) st' l).2 (foldl (compare_common O N) st l).2.
Proof.
  revert st st'. induction l as [|crn l IH]; intros st st' H1 H2; simpl; [done|].
  destruct (compare_common_swap O N st st' crn H1 H2) as [H1' H2'].
  by apply IH.
Qed.

Lemma compare_tables_swap O N :
  added_courses (compare_tables N O) = removed_courses (compare_tables O N) ∧
  removed_courses (compare_tables N O) = added_courses (compare_tables O N) ∧
  swapped_records (time_location_changes (compare_tables N O))
                  (time_location_changes (compare_tables O N)) ∧
  swapped_records (enrollment_changes (compare_tables N O))
                  (enrollment_changes (compare_tables O N)).
Proof.
  unfold compare_tables.
  assert (common_crns N O = common_crns O N) as ->
    by (unfold common_crns; apply (comm_L (∩))).
  destruct (compare_fold_swap O N (elements (common_crns O N)) ([], []) ([], []))
    as [H1 H2]; [done..|].
  destruct (foldl (compare_common N O) _ _) as [tl' en'].
  destruct (foldl (compare_common O N) _ _) as [tl en].
  done.
Qed.

(** The keys of a keyed snapshot are the cells of the CRN column, and each
    row is stored under its own CRN. *)
Lemma index_by_crn_dom (df : list row) (acc m : gmap cell row) :
  index_by_crn df acc = Ok m →
  dom m = dom acc ∪ list_to_set (omap (λ r : row, r !! "CRN") df).
Proof.
  revert acc. induction df as [|r df IH]; intros acc; cbn [index_by_crn].
  - intros [= <-]. set_solver.
  - destruct (r !! "CRN") as [crn|] eqn:Hcrn; [|done].
    intros Hm%IH. rewrite Hm, dom_insert_L. cbn [omap list_omap]. rewrite Hcrn.
    set_solver.
Qed.

Lemma index_by_crn_keyed (df : list row) (acc m : gmap cell row) :
  index_by_crn df acc = Ok m →
  (∀ crn r, acc !! crn = Some r → r !! "CRN" = Some crn) →
  ∀ crn r, m !! crn = Some r → r !! "CRN" = Some crn.
Proof.
  revert acc. induction df as [|r df IH]; intros acc; cbn [index_by_crn].
  - by intros [= <-].
  - destruct (r !! "CRN") as [crn|] eqn:Hcrn; [|done].
    intros Hm Hacc. apply (IH _ Hm). intros crn' r'.
    rewrite lookup_insert. case_decide as Heq; [|by apply Hacc].
    intros [= <-]. by rewrite <- Heq.
Qed.

Lemma compare_course_files_load fs a b :
  compare_course_files fs a b = Ok (report_of (load fs a) (load fs b)).
Proof.
  unfold compare_course_files, compare_body, load, path_exists, read_csv.
  destruct (fs !! a) as [[|da]|] eqn:Ea; simpl; [done| |done].
  destruct (fs !! b) as [[|db]|]; simpl.
  - by destruct (index_by_crn da ∅).
  - by destruct (index_by_crn da ∅), (index_by_crn db ∅).
  - by destruct (index_by_crn da ∅).
Qed.

Lemma report_of_swap A B :
  added_courses (report_of B A) = removed_courses (report_of A B) ∧
  removed_courses (report_of B A) = added_courses (report_of A B) ∧
  swapped_records (time_location_changes (report_of B A))
                  (time_location_changes (report_of A B)) ∧
  swapped_records (enrollment_changes (report_of B A))
                  (enrollment_changes (report_of A B)).
Proof.
  destruct A as [O|], B as [N|]; simpl; try done.
  apply compare_tables_swap.
Qed.

(** C2.  Swapping the old and the new snapshot swaps the added and the
    removed courses, and every change record of the swapped run is for the
    same CRN with the same fields, the old and new value of each field
    exchanged.  Lists are compared up to order: Python does not fix the
    iteration order of a set. *)
Theorem differ_swap (fs : gmap string csv_file) (old_file new_file : string) :
  ∃ report swapped,
    compare_course_files fs old_file new_file = Ok report ∧
    compare_course_files fs new_file old_file = Ok swapped ∧
    added_courses swapped ≡ₚ removed_courses report ∧
    removed_courses swapped ≡ₚ added_courses report ∧
    keyed_changes <$> time_location_changes swapped ≡ₚ
      (prod_map id swap_changes ∘ keyed_changes) <$> time_location_changes report ∧
    keyed_changes <$> enrollment_changes swapped ≡ₚ
      (prod_map id swap_changes ∘ keyed_changes) <$> enrollment_changes report.
Proof.
  eexists _, _. split; [apply compare_course_files_load|].
  split; [apply compare_course_files_load|].
  destruct (report_of_swap (load fs old_file) (load fs new_file)) as (-> & -> & H3 & H4).
  unfold swapped_records in *. by rewrite H3, H4.
Qed.

Lemma compare_common_parts O N st crn :
  compare_common O N st crn =
  (st.1 ++ time_location_part O N crn, st.2 ++ enrollment_part O N crn).
Proof.
  unfold compare_common, time_location_part, enrollment_part.
  destruct (foldl (time_location_step _ _) _ _) as [b chs].
  destruct (foldl (enrollment_step _ _) _ _) as [b' chs'].
  destruct b, b'; by rewrite ?app_nil_r.
Qed.

Lemma compare_fold_parts O N l st :
  foldl (compare_common O N) st l =
  (st.1 ++ (l ≫= time_location_part O N), st.2 ++ (l ≫= enrollment_part O N)).
Proof.
  revert st. induction l as [|crn l IH]; intros [tl en]; csimpl.
  - by rewrite !app_nil_r.
  - rewrite IH, compare_common_parts. csimpl. by rewrite <- !(assoc_L (++)).
Qed.

Lemma compare_tables_parts O N :
  compare_tables O N =
  Comparison ((λ crn, N !!! crn) <$> elements (added_crns O N))
             ((λ crn, O !!! crn) <$> elements (removed_crns O N))
             (elements (common_crns O N) ≫= time_location_part O N)
             (elements (common_crns O N) ≫= enrollment_part O N).
Proof. unfold compare_tables. by rewrite compare_fold_parts. Qed.


Lemma elem_of_added_courses O N r :
  r ∈ added_courses (compare_tables O N) ↔
  ∃ crn, crn ∈ added_crns O N ∧ N !! crn = Some r.
Proof.
  rewrite compare_tables_parts. cbn [added_courses]. rewrite list_elem_of_fmap.
  unfold added_crns. split.
  - intros (crn & -> & Hin%elem_of_elements). exists crn. split; [done|].
    apply elem_of_difference in Hin as [[x Hx]%elem_of_dom _].
    by rewrite (lookup_total_correct _ _ _ Hx).
  - intros (crn & Hin & Hr). exists crn.
    rewrite (lookup_total_correct _ _ _ Hr). by rewrite elem_of_elements.
Qed.

Lemma elem_of_removed_courses O N r :
  r ∈ removed_courses (compare_tables O N) ↔
  ∃ crn, crn ∈ removed_crns O N ∧ O !! crn = Some r.
Proof.
  rewrite compare_tables_parts. cbn [removed_courses]. rewrite list_elem_of_fmap.
  unfold removed_crns. split.
  - intros (crn & -> & Hin%elem_of_elements). exists crn. split; [done|].
    apply elem_of_difference in Hin as [[x Hx]%elem_of_dom _].
    by rewrite (lookup_total_correct _ _ _ Hx).
  - intros (crn & Hin & Hr). exists crn.
    rewrite (lookup_total_correct _ _ _ Hr). by rewrite elem_of_elements.
Qed.

Lemma elem_of_time_location_part O N crn rec :
  rec ∈ time_location_part O N crn → CRN rec = crn.
Proof.
  unfold time_location_part. destruct (foldl _ _ _) as [[] chs].
  - by intros ->%list_elem_of_singleton.
  - by intros ?%elem_of_nil.
Qed.

Lemma elem_of_enrollment_part O N crn rec :
  rec ∈ enrollment_part O N crn ↔
  rec = make_record crn (N !!! crn)
          (foldl (enrollment_step (O !!! crn) (N !!! crn)) (false, [])
                 enrollment_fields).2 ∧
  (foldl (enrollment_step (O !!! crn) (N !!! crn)) (false, [])
         enrollment_fields).1 = true.
Proof.
  unfold enrollment_part. destruct (foldl _ _ _) as [[] chs]; cbn [fst snd].
  - rewrite list_elem_of_singleton. naive_solver.
  - rewrite elem_of_nil. naive_solver.
Qed.

(** C1.  For two snapshots keyed by CRN the three key sets are
    [added = newKeys ∖ oldKeys], [removed = oldKeys ∖ newKeys] and
    [common = oldKeys ∩ newKeys]; together they cover [oldKeys ∪ newKeys],
    and [added] and [removed] are disjoint.  The report lists the new rows
    of the added keys and the old rows of the removed keys, and change
    records only for common keys. *)
Theorem differ_key_sets (old_courses new_courses : gmap cell row) :
  let oldKeys := dom old_courses in
  let newKeys := dom new_courses in
  let added := added_crns old_courses new_courses in
  let removed := removed_crns old_courses new_courses in
  let common := common_crns old_courses new_courses in
  let report := compare_tables old_courses new_courses in
  added = newKeys ∖ oldKeys ∧
  removed = oldKeys ∖ newKeys ∧
  common = oldKeys ∩ newKeys ∧
  added ∪ removed ∪ common = oldKeys ∪ newKeys ∧
  added ∩ removed = ∅ ∧
  (∀ r, r ∈ added_courses report ↔ ∃ crn, crn ∈ added ∧ new_courses !! crn = Some r) ∧
  (∀ r, r ∈ removed_courses report ↔ ∃ crn, crn ∈ removed ∧ old_courses !! crn = Some r) ∧
  (∀ rec, rec ∈ time_location_changes report ∨ rec ∈ enrollment_changes report →
          CRN rec ∈ common).
Proof.
  intros oldKeys newKeys added removed common report.
  split_and!; try done.
  - apply set_eq. intros crn. unfold added, removed, common, added_crns,
      removed_crns, common_crns. fold oldKeys newKeys.
    rewrite !elem_of_union, !elem_of_difference, elem_of_intersection.
    destruct (decide (crn ∈ oldKeys)), (decide (crn ∈ newKeys)); naive_solver.
  - unfold added, removed, added_crns, removed_crns. set_solver.
  - apply elem_of_added_courses.
  - apply elem_of_removed_courses.
  - intros rec. unfold report. rewrite compare_tables_parts.
    cbn [time_location_changes enrollment_changes].
    rewrite !list_elem_of_bind.
    intros [(crn & Hrec & Hin%elem_of_elements)|(crn & Hrec & Hin%elem_of_elements)].
    + by rewrite (elem_of_time_location_part _ _ _ _ Hrec).
    + apply elem_of_enrollment_part in Hrec as [-> _]. done.
Qed.




(** C8.  When the prior snapshot file does not exist the differ returns,
    without raising, the report whose four lists are empty. *)
Theorem differ_missing_old (fs : gmap string csv_file) (old_file new_file : string) :
  fs !! old_file = None →
  compare_course_files fs old_file new_file = Ok empty_comparison.
Proof.
  intros Hmiss. unfold compare_course_files, path_exists.
  rewrite Hmiss. rewrite bool_decide_eq_false_2 by (by intros [? ?]). done.
Qed.

Lemma time_location_fold_same (o : row) fields :
  foldl (time_location_step o o) (false, []) fields = (false, []).
Proof.
  induction fields as [|f fields IH]; [done|]. cbn [foldl].
  unfold time_location_step at 2. by rewrite bool_decide_eq_false_2 by (by intros []).
Qed.

Lemma enrollment_fold_same (o : row) fields :
  foldl (enrollment_step o o) (false, []) fields = (false, []).
Proof.
  induction fields as [|f fields IH]; [done|]. cbn [foldl].
  unfold enrollment_step at 2. by rewrite bool_decide_eq_false_2 by (by intros []).
Qed.

Lemma bind_nil {A B} (f : A → list B) (l : list A) :
  (∀ x, f x = []) → l ≫= f = [].
Proof. intros Hf. induction l as [|x l IH]; csimpl; [done|]. by rewrite Hf, IH. Qed.

Lemma compare_tables_same (T : gmap cell row) :
  compare_tables T T = empty_comparison.
Proof.
  rewrite compare_tables_parts. unfold added_crns, removed_crns.
  rewrite difference_diag_L, elements_empty.
  rewrite !bind_nil; [done| |].
  - intros crn. unfold enrollment_part. by rewrite enrollment_fold_same.
  - intros crn. unfold time_location_part. by rewrite time_location_fold_same.
Qed.

(** C10.  When both files exist and reading or keying them raises, the
    differ returns the all-empty report, which is also the report it gives
    when both files hold one and the same snapshot. *)
Theorem differ_swallows_errors (fs : gmap string csv_file)
    (old_file new_file : string) (e : exn) (snapshot : list row) :
  is_Some (fs !! old_file) → is_Some (fs !! new_file) →
  compare_body fs old_file new_file = Err e →
  compare_course_files fs old_file new_file = Ok empty_comparison ∧
  compare_course_files
    (<[old_file := Csv snapshot]> (<[new_file := Csv snapshot]> fs))
    old_file new_file = Ok empty_comparison.
Proof.
  intros Hold Hnew Hbody. split.
  - unfold compare_course_files. by rewrite Hbody, Tauto.if_same.
  - rewrite compare_course_files_load.
    assert (∀ f, f = old_file ∨ f = new_file →
                 load (<[old_file := Csv snapshot]> (<[new_file := Csv snapshot]> fs)) f
                 = index_by_crn snapshot ∅) as Hload.
    { intros f Hf. unfold load, read_csv.
      destruct (decide (f = old_file)) as [->|Hne].
      - by rewrite lookup_insert_eq.
      - destruct Hf as [->| ->]; [done|].
        by rewrite lookup_insert_ne, lookup_insert_eq by done. }
    rewrite !Hload by auto.
    destruct (index_by_crn snapshot ∅) as [T|]; cbn [report_of]; [|done].
    by rewrite compare_tables_same.
Qed.


(** *** The record normaliser *)




Lemma foldl_collect {A B} (p : A → bool) (g : A → B) (l : list A) (acc : list B) :
  foldl (λ acc x, if p x then acc ++ [g x] else acc) acc l =
  acc ++ (g <$> filter (λ x, p x = true) l).
Proof.
  revert acc. induction l as [|x l IH]; intros acc; csimpl.
  - by rewrite app_nil_r.
  - rewrite IH, filter_cons. destruct (p x) eqn:E.
    + rewrite decide_True by done. csimpl. by rewrite <- (assoc_L (++)).
    + rewrite decide_False by done. done.
Qed.

Lemma foldl_agree {A B} (f g : B → A → B) (l : list A) (b : B) :
  (∀ b x, f b x = g b x) → foldl f b l = foldl g b l.
Proof.
  intros Hfg. revert b. induction l as [|x l IH]; intros b; simpl; [done|].
  by rewrite Hfg, IH.
Qed.

Lemma active_days_filter (meeting_time : pydict) :
  active_days meeting_time = set_day_codes meeting_time.
Proof.
  unfold active_days, set_day_codes.
  pose proof (foldl_collect (λ da, day_flag meeting_time da.1) snd
                day_mapping []) as H.
  rewrite app_nil_l in H. rewrite <- H.
  apply foldl_agree. by intros acc [day abbrev].
Qed.

Lemma NoDup_fmap_eq {A B} (g : A → B) (l : list A) (x y : A) :
  NoDup (g <$> l) → x ∈ l → y ∈ l → g x = g y → x = y.
Proof.
  induction l as [|z l IH]; csimpl; [by intros _ ?%elem_of_nil|].
  intros [Hz Hnd]%NoDup_cons [->|Hx]%elem_of_cons [->|Hy]%elem_of_cons Hg;
    [done| | |by apply IH].
  - destruct Hz. rewrite Hg. by apply list_elem_of_fmap_2.
  - destruct Hz. rewrite <- Hg. by apply list_elem_of_fmap_2.
Qed.

Lemma elem_of_fmap_filter_NoDup {A B} `{EqDecision B} (g : A → B)
    (P : A → Prop) `{∀ x, Decision (P x)} (l : list A) (x : A) :
  NoDup (g <$> l) → x ∈ l → (g x ∈ g <$> filter P l ↔ P x).
Proof.
  intros Hnd Hx. split.
  - intros (y & Hg & [Hy HyP]%list_elem_of_filter)%list_elem_of_fmap.
    assert (x = y) as -> by (by eapply (NoDup_fmap_eq g l)).
    done.
  - intros HP. apply list_elem_of_fmap. exists x. split; [done|].
    by apply list_elem_of_filter.
Qed.

(** C6.  The days string is made of the codes of exactly the day flags
    that are set, in the order M, T, W, R, F, S, U; when no flag is set the
    result is the value of [meetingTimeType], and ["TBA"] when that is
    absent too. *)
Theorem extract_days_of_week_spec (meeting_time : pydict) :
  let codes := set_day_codes meeting_time in
  codes `sublist_of` ["M"; "T"; "W"; "R"; "F"; "S"; "U"] ∧
  (∀ day abbrev, (day, abbrev) ∈ day_mapping →
     (abbrev ∈ codes ↔ day_flag meeting_time day = true)) ∧
  (codes ≠ [] → extract_days_of_week meeting_time = PStr (String.concat "" codes)) ∧
  (codes = [] →
     extract_days_of_week meeting_time = get meeting_time "meetingTimeType" (PStr "TBA")) ∧
  (codes = [] → meeting_time !! "meetingTimeType" = None →
     extract_days_of_week meeting_time = PStr "TBA").
Proof.
  intros codes.
  assert (extract_days_of_week meeting_time =
          if bool_decide (codes ≠ []) then PStr (String.concat "" codes)
          else get meeting_time "meetingTimeType" (PStr "TBA")) as Hrun.
  { unfold extract_days_of_week. rewrite active_days_filter. fold codes.
    case_bool_decide as Hempty; [|done]. subst meeting_time.
    assert (codes = []) as -> by done. done. }
  split_and!.
  - unfold codes, set_day_codes.
    change ["M"; "T"; "W"; "R"; "F"; "S"; "U"] with (snd <$> day_mapping).
    apply fmap_sublist, sublist_filter.
  - intros day abbrev Hin.
    apply (elem_of_fmap_filter_NoDup snd
             (λ da, day_flag meeting_time da.1 = true) day_mapping (day, abbrev));
      [|done].
    compute_done.
  - intros Hne. by rewrite Hrun, bool_decide_eq_true_2.
  - intros Hnil. rewrite Hrun, bool_decide_eq_false_2; [done|]. by intros [].
  - intros Hnil Hnone. rewrite Hrun, bool_decide_eq_false_2 by (by intros []).
    unfold get. by rewrite Hnone.
Qed.


(** *** Enrollment detail *)

Section EnrollmentParsers.
Variable find_status_spans : string → result (list (string * option string)).
Variable re_search : string → string → option string.

Lemma span_step_lookup info span key :
  span_step info span !! key =
  match span_value key span with
  | Some value => Some (PStr value)
  | None => info !! key
  end.
Proof.
  unfold span_step, span_value. destruct span as [label [value|]]; cbn [fst snd]; [|done].
  destruct (label_key (lower label)) as [k|]; [|done].
  destruct (decide (k = key)) as [->|Hne].
  - by rewrite lookup_insert_eq.
  - by rewrite lookup_insert_ne.
Qed.

Lemma span_fold_lookup spans info key :
  foldl span_step info spans !! key =
  match last (labelled_values spans key) with
  | Some value => Some (PStr value)
  | None => info !! key
  end.
Proof.
  revert info. induction spans as [|span spans IH]; intros info; [done|].
  cbn [foldl]. rewrite IH, span_step_lookup.
  unfold labelled_values. cbn [omap list_omap].
  destruct (span_value key span) as [value|]; [|done].
  rewrite last_cons. by destruct (last (omap (span_value key) spans)).
Qed.

Lemma regex_fold_other html ps info key :
  key ∉ ps.*1 → foldl (regex_step re_search html) info ps !! key = info !! key.
Proof.
  revert info. induction ps as [|[k p] ps IH]; intros info Hnot; [done|].
  cbn [foldl]. rewrite IH by set_solver. unfold regex_step. cbn [fst snd].
  destruct (re_search p html); [|done]. rewrite lookup_insert_ne; [done|set_solver].
Qed.

Lemma regex_fold_lookup html ps info key pattern :
  NoDup ps.*1 → (key, pattern) ∈ ps →
  foldl (regex_step re_search html) info ps !! key =
  match re_search pattern html with
  | Some group1 => Some (PStr group1)
  | None => info !! key
  end.
Proof.
  revert info. induction ps as [|[k p] ps IH]; intros info Hnd Hin;
    [by apply elem_of_nil in Hin|].
  apply NoDup_cons in Hnd as [Hk Hnd]. cbn [foldl].
  apply elem_of_cons in Hin as [[= <- <-]|Hin].
  - rewrite regex_fold_other by done. unfold regex_step. cbn [fst snd].
    destruct (re_search pattern html); [|done]. by rewrite lookup_insert_eq.
  - rewrite IH by done. destruct (re_search pattern html); [done|].
    unfold regex_step. cbn [fst snd]. destruct (re_search p html); [|done].
    rewrite lookup_insert_ne; [done|]. intros ->. apply Hk.
    by apply (list_elem_of_fmap_2 fst _ (key, pattern)).
Qed.

Lemma default_enrollment_lookup key :
  key ∈ enrollment_keys → default_enrollment !! key = Some (PStr "N/A").
Proof.
  unfold enrollment_keys. rewrite !elem_of_cons, elem_of_nil.
  intros [->|[->|[->|[->|[->|[->|[]]]]]]]; by vm_compute.
Qed.

Lemma patterns_keys : patterns.*1 = enrollment_keys.
Proof. reflexivity. Qed.

(** C9.  The structural parse gives each of the six fields the value of
    its last label/value pair and ["N/A"] when it has none; the regex parse
    gives each field the match of its own pattern and ["N/A"] when there is
    none; and on a non-empty input [parse_enrollment_html] returns the
    regex parse exactly when the structural parse raised or left
    [enrollment_actual] at ["N/A"], the structural parse otherwise. *)
Theorem parse_enrollment_html_fallback (html_content : string) :
  (∀ spans key, key ∈ enrollment_keys →
     structural_parse spans !! key =
     Some (PStr (default "N/A" (last (labelled_values spans key))))) ∧
  (∀ key pattern, (key, pattern) ∈ patterns →
     parse_enrollment_regex re_search html_content !! key =
     Some (PStr (if String.eqb html_content "" then "N/A"
                 else default "N/A" (re_search pattern html_content)))) ∧
  (html_content = "" →
     parse_enrollment_html find_status_spans re_search html_content
     = default_enrollment) ∧
  (html_content ≠ "" →
     parse_enrollment_html find_status_spans re_search html_content =
     match find_status_spans html_content with
     | Ok spans =>
         if decide (default "N/A" (last (labelled_values spans "enrollment_actual"))
                    = "N/A")
         then parse_enrollment_regex re_search html_content
         else structural_parse spans
     | Err _ => parse_enrollment_regex re_search html_content
     end).
Proof.
  assert (∀ spans key, key ∈ enrollment_keys →
     structural_parse spans !! key =
     Some (PStr (default "N/A" (last (labelled_values spans key))))) as Hstruct.
  { intros spans key Hkey. unfold structural_parse. rewrite span_fold_lookup.
    destruct (last _); [done|]. by apply default_enrollment_lookup. }
  split_and!; [done| | |].
  - intros key pattern Hin. unfold parse_enrollment_regex.
    assert (key ∈ enrollment_keys) as Hkey.
    { rewrite <- patterns_keys. by apply (list_elem_of_fmap_2 fst _ (key, pattern)). }
    destruct (String.eqb html_content ""); [by apply default_enrollment_lookup|].
    rewrite (regex_fold_lookup _ _ _ key pattern); [|compute_done|done].
    destruct (re_search pattern html_content); [done|].
    by apply default_enrollment_lookup.
  - intros ->. done.
  - intros Hne. unfold parse_enrollment_html.
    apply String.eqb_neq in Hne as ->.
    destruct (find_status_spans html_content) as [spans|]; [|done].
    assert ("enrollment_actual" ∈ enrollment_keys) as Hkey by set_solver.
    apply (Hstruct spans) in Hkey. apply lookup_total_correct in Hkey as ->.
    cbn [py_eq]. case_decide as Hd.
    + rewrite Hd. done.
    + apply String.eqb_neq in Hd as ->. done.
Qed.

End EnrollmentParsers.


(** *** Authorization with retries *)

Section emits.
Context {A B : Type} (P : event → Prop).

Lemma emits_ret (a : A) : emits P (mret a).
Proof. intros h. constructor. Qed.

Lemma emits_raise (e : exn) : emits P (@raise A e).
Proof. intros h. constructor. Qed.

Lemma emits_out_of_fuel : emits P (@out_of_fuel A).
Proof. intros h. constructor. Qed.

Lemma emits_emit (e : event) : P e → emits P (emit e).
Proof. intros He h. by repeat constructor. Qed.

Lemma emits_send (net : service) (r : request) : P (Sent r) → emits P (send net r).
Proof. intros He h. unfold send. destruct (net h r); by repeat constructor. Qed.

Lemma emits_bind (m : M A) (f : A → M B) :
  emits P m → (∀ a, emits P (f a)) → emits P (m ≫= f).
Proof.
  intros Hm Hf h. unfold mbind, M_bind. specialize (Hm h).
  destruct (m h) as [[a| |] es]; [|done..].
  specialize (Hf a (h ++ es)). destruct (f a (h ++ es)) as [r es'].
  by apply Forall_app.
Qed.

Lemma emits_try (m : M A) (catches : exn → bool) (handler : exn → M A) :
  emits P m → (∀ e, emits P (handler e)) → emits P (try_except m catches handler).
Proof.
  intros Hm Hf h. unfold try_except. specialize (Hm h).
  destruct (m h) as [[a|e|] es]; [done| |done].
  destruct (catches e); [|done].
  specialize (Hf e (h ++ es)). destruct (handler e (h ++ es)) as [r es'].
  by apply Forall_app.
Qed.

Lemma emits_lift (r : result A) : emits P (lift r).
Proof. destruct r; [apply emits_ret|apply emits_raise]. Qed.

End emits.

Lemma emits_raise_for_status P r : emits P (raise_for_status r).
Proof. unfold raise_for_status. destruct (_ && _); [apply emits_raise|apply emits_ret]. Qed.

Lemma emits_json P r : emits P (json r).
Proof. unfold json. destruct (content r); [apply emits_raise|apply emits_ret]. Qed.

Ltac emits_step :=
  first
    [ apply emits_ret | apply emits_raise | apply emits_out_of_fuel
    | apply emits_raise_for_status | apply emits_json | apply emits_lift
    | apply emits_bind; [|intros ?]
    | apply emits_try; [|intros ?]
    | apply emits_send
    | apply emits_emit
    | match goal with
      | |- emits _ (if ?b then _ else _) => destruct b
      | |- emits _ (match ?x with _ => _ end) => destruct x
      | |- emits _ (let '(_, _) := ?x in _) => destruct x
      end ].

Lemma authorize_session_emits net term_code :
  emits (auth_event term_code) (authorize_session net term_code).
Proof.
  unfold authorize_session, follow_forward, on_ValueError.
  repeat emits_step; eexists; split; try reflexivity; auto.
Qed.

Lemma count_app p a b : count p (a ++ b) = (count p a + count p b)%nat.
Proof. unfold count. by rewrite filter_app, length_app. Qed.

Lemma count_cons p e es :
  count p (e :: es) = ((if p e then 1 else 0) + count p es)%nat.
Proof.
  unfold count. rewrite filter_cons. destruct (p e) eqn:E.
  - by rewrite decide_True.
  - by rewrite decide_False.
Qed.

Lemma count_quiet p es : Forall (λ e, p e = false) es → count p es = 0%nat.
Proof.
  induction 1 as [|e es He _ IH]; [done|]. by rewrite count_cons, He, IH.
Qed.

Lemma well_delayed_app a b :
  Forall (λ e, is_failure_log e = false) a →
  well_delayed (a ++ b) = well_delayed b.
Proof. induction 1 as [|e es He _ IH]; [done|]. cbn. by rewrite He. Qed.

Lemma well_delayed_spec es i e :
  well_delayed es = true → es !! i = Some e → is_failure_log e = true →
  es !! S i = Some (Slept 2000).
Proof.
  revert i. induction es as [|x es IH]; intros i Hwd Hi He; [done|].
  cbn [well_delayed] in Hwd. destruct i as [|i]; cbn in Hi.
  - injection Hi as ->. rewrite He in Hwd.
    destruct es as [|[| [] |] es]; try done.
    repeat (match type of Hwd with context [match ?p with _ => _ end] =>
              destruct p; try done end).
  - cbn. apply IH; [|done..].
    destruct (is_failure_log x); [|done].
    destruct es as [|[| [] |] es]; try done.
    repeat (match type of Hwd with context [match ?p with _ => _ end] =>
              destruct p; try done end).
Qed.

Section Retries.
Variable net : service.
Variable term_code : string.

Lemma authorize_with_retries_cons attempt rest h :
  authorize_with_retries net term_code (attempt :: rest) h =
  let '(r1, e1) := authorize_session net term_code (h ++ [attempt_log attempt]) in
  match r1 with
  | Done true => (Done true, attempt_log attempt :: e1)
  | Done false =>
      let '(r2, e2) :=
        authorize_with_retries net term_code rest
          (h ++ attempt_log attempt :: e1 ++ [failure_log attempt; Slept 2000]) in
      (r2, attempt_log attempt :: e1 ++ [failure_log attempt; Slept 2000] ++ e2)
  | Raised e => (Raised e, attempt_log attempt :: e1)
  | Running => (Running, attempt_log attempt :: e1)
  end.
Proof.
  cbn [authorize_with_retries]. unfold mbind, M_bind, mret, M_ret, log, sleep, emit.
  fold (attempt_log attempt) (failure_log attempt).
  destruct (authorize_session net term_code (h ++ [attempt_log attempt]))
    as [[[]|e|] e1]; cbn [app]; rewrite ?app_nil_r; try done.
  replace ((((h ++ [attempt_log attempt]) ++ e1) ++ [failure_log attempt])
           ++ [Slept 2000])
    with (h ++ attempt_log attempt :: e1 ++ [failure_log attempt; Slept 2000])
    by (by rewrite <- !(assoc_L (++))).
  by destruct (authorize_with_retries net term_code rest _) as [r2 e2].
Qed.

Lemma auth_event_plain e :
  auth_event term_code e →
  is_attempt_log e = false ∧ is_failure_log e = false ∧ not_search e.
Proof.
  intros (r & -> & Hr). split_and!; [done..|].
  unfold not_search, is_search_request. apply bool_decide_eq_false_2.
  intros [Hu Hp]. destruct Hr as [Hr| ->].
  - rewrite Hr in Hp. by apply elem_of_nil in Hp.
  - by vm_compute in Hu.
Qed.

Lemma authorize_with_retries_trace attempts h :
  let '(r, es) := authorize_with_retries net term_code attempts h in
  (count is_attempt_log es ≤ length attempts)%nat ∧
  (count is_failure_log es ≤ length attempts)%nat ∧
  (count is_failure_log es = length attempts → r = Done false) ∧
  (r = Done false → count is_failure_log es = length attempts) ∧
  well_delayed es = true ∧
  Forall not_search es.
Proof.
  revert h. induction attempts as [|attempt rest IH]; intros h.
  { cbn. split_and!; try done; lia. }
  rewrite authorize_with_retries_cons.
  pose proof (authorize_session_emits net term_code (h ++ [attempt_log attempt])) as He1.
  destruct (authorize_session net term_code (h ++ [attempt_log attempt])) as [r1 e1].
  cbn [snd] in He1.
  assert (Forall (λ e, is_attempt_log e = false) e1) as Ha
    by (eapply Forall_impl; [exact He1|]; by intros e (?&?&?)%auth_event_plain).
  assert (Forall (λ e, is_failure_log e = false) e1) as Hf
    by (eapply Forall_impl; [exact He1|]; by intros e (?&?&?)%auth_event_plain).
  assert (Forall not_search e1) as Hs
    by (eapply Forall_impl; [exact He1|]; by intros e (?&?&?)%auth_event_plain).
  assert (∀ r, r ≠ Done false →
    (count is_attempt_log (attempt_log attempt :: e1) ≤ length (attempt :: rest))%nat ∧
    (count is_failure_log (attempt_log attempt :: e1) ≤ length (attempt :: rest))%nat ∧
    (count is_failure_log (attempt_log attempt :: e1) = length (attempt :: rest) → r = Done false) ∧
    (r = Done false → count is_failure_log (attempt_log attempt :: e1) = length (attempt :: rest)) ∧
    well_delayed (attempt_log attempt :: e1) = true ∧
    Forall not_search (attempt_log attempt :: e1)) as Hstop.
  { intros r Hr. rewrite !count_cons, (count_quiet _ _ Ha), (count_quiet _ _ Hf).
    cbn [length].
    change (is_attempt_log (attempt_log attempt)) with true.
    change (is_failure_log (attempt_log attempt)) with false.
    split_and!; try done; try lia.
    - change (attempt_log attempt :: e1) with ([attempt_log attempt] ++ e1).
      rewrite well_delayed_app by (by repeat constructor).
      rewrite <- (app_nil_r e1). by rewrite well_delayed_app.
    - by constructor. }
  destruct r1 as [[]|e|]; try (by apply Hstop).
  specialize (IH (h ++ attempt_log attempt :: e1 ++ [failure_log attempt; Slept 2000])).
  destruct (authorize_with_retries net term_code rest _) as [r2 e2].
  destruct IH as (IHa & IHf & IHd & IHd' & IHw & IHs).
  pose proof (count_quiet _ _ Ha) as Ha0. pose proof (count_quiet _ _ Hf) as Hf0.
  rewrite !count_cons, !count_app, !count_cons, Ha0, Hf0.
  change (is_attempt_log (attempt_log attempt)) with true.
  change (is_failure_log (attempt_log attempt)) with false.
  change (is_attempt_log (failure_log attempt)) with false.
  change (is_failure_log (failure_log attempt)) with true.
  change (count is_attempt_log []) with 0%nat.
  change (count is_failure_log []) with 0%nat.
  cbn [is_attempt_log is_failure_log length].
  split_and!; try lia.
  - intros Hc. apply IHd. lia.
  - intros Hr. apply IHd' in Hr. lia.
  - change (attempt_log attempt :: e1 ++ [failure_log attempt; Slept 2000] ++ e2)
      with ((attempt_log attempt :: e1) ++ failure_log attempt :: Slept 2000 :: e2).
    rewrite well_delayed_app by (by constructor). done.
  - constructor; [done|]. apply Forall_app. split; [done|].
    by repeat constructor.
Qed.

End Retries.

Section Quiet.
Variable net : service.
Variable find_status_spans : string → result (list (string * option string)).
Variable re_search : string → string → option string.

Lemma search_loop_quiet fuel term_code page_max_size max_pages all_courses
    page_offset page_count :
  emits quiet (search_loop net fuel term_code page_max_size max_pages
                           all_courses page_offset page_count).
Proof.
  revert all_courses page_offset page_count.
  induction fuel as [|fuel IH]; intros all_courses page_offset page_count;
    cbn [search_loop]; [apply emits_out_of_fuel|].
  apply emits_bind.
  - unfold fetch_page, sleep. by repeat emits_step.
  - intros [cs|cs off]; [apply emits_ret|apply IH].
Qed.

Lemma enrich_course_quiet term_code i total course :
  emits quiet (enrich_course net find_status_spans re_search term_code i total course).
Proof.
  unfold enrich_course, get_meeting_times, get_enrollment_info, log, sleep.
  by repeat emits_step.
Qed.

Lemma enrich_loop_quiet term_code i total courses enriched :
  emits quiet (enrich_loop net find_status_spans re_search term_code i total
                           courses enriched).
Proof.
  revert i enriched. induction courses as [|course rest IH]; intros i enriched;
    cbn [enrich_loop]; [apply emits_ret|].
  apply emits_bind; [apply enrich_course_quiet|]. intros cs. apply IH.
Qed.

End Quiet.

Section Pipeline.
Variable net : service.
Variable find_status_spans : string → result (list (string * option string)).
Variable re_search : string → string → option string.
Variable fuel : nat.
Variable term_code campus : string.
Variable page_max_size : Z.
Variable max_pages : option Z.

Lemma scrape_course_schedule_run :
  ∃ continue : M (list CourseSection),
    emits quiet continue ∧
    ∀ h,
      scrape_course_schedule net find_status_spans re_search fuel term_code
                             campus page_max_size max_pages h =
      let '(r1, es1) := authorize_with_retries net term_code [0; 1; 2] h in
      match r1 with
      | Done true => let '(r2, es2) := continue (h ++ es1) in (r2, es1 ++ es2)
      | Done false => (Done [], es1 ++ [abort_log])
      | Raised e => (Raised e, es1)
      | Running => (Running, es1)
      end.
Proof.
  eexists. split; cycle 1.
  - intros h. unfold scrape_course_schedule. unfold mbind at 1, M_bind at 1.
    destruct (authorize_with_retries net term_code [0; 1; 2] h) as [[[]|e|] es1];
      cbn [negb]; [reflexivity|reflexivity..].
  - unfold search_courses, log.
    repeat first [ apply search_loop_quiet | apply enrich_loop_quiet | emits_step ];
      done.
Qed.

(** C7.  A run opens at most three authorization attempts; every failure
    warning is directly followed by a sleep of two seconds; and when three
    attempts have failed the run returns the empty list, has sent no search
    request, and ends with the abort line of the log. *)
Theorem authorization_retries (h : list event) :
  let run := scrape_course_schedule net find_status_spans re_search fuel
               term_code campus page_max_size max_pages h in
  (count is_attempt_log run.2 ≤ 3)%nat ∧
  (∀ i e, run.2 !! i = Some e → is_failure_log e = true →
          run.2 !! S i = Some (Slept 2000)) ∧
  (count is_failure_log run.2 = 3%nat →
     run.1 = Done [] ∧ Forall not_search run.2 ∧ last run.2 = Some abort_log).
Proof.
  intros run. subst run.
  destruct scrape_course_schedule_run as (continue & Hquiet & ->).
  pose proof (authorize_with_retries_trace net term_code [0; 1; 2] h) as Hauth.
  destruct (authorize_with_retries net term_code [0; 1; 2] h) as [r1 es1].
  destruct Hauth as (Ha & Hf & Hall & Hall' & Hw & Hs). cbn [length] in *.
  assert (∀ es2, Forall quiet es2 →
            count is_attempt_log (es1 ++ es2) = count is_attempt_log es1 ∧
            count is_failure_log (es1 ++ es2) = count is_failure_log es1 ∧
            well_delayed (es1 ++ es2) = true) as Hext.
  { intros es2 Hq. rewrite !count_app.
    rewrite (count_quiet is_attempt_log es2), (count_quiet is_failure_log es2);
      [|eapply Forall_impl; [exact Hq|]; by intros e [? ?]..].
    split_and!; [lia..|].
    clear -Hw Hq. induction es1 as [|e es IH].
    - cbn. rewrite <- (app_nil_r es2). apply well_delayed_app.
      eapply Forall_impl; [exact Hq|]. by intros e [? ?].
    - cbn [app well_delayed] in *. destruct (is_failure_log e); [|by apply IH].
      destruct es as [|[| z |] es]; try done. cbn [app].
      destruct (decide (z = 2000)) as [->|Hne]; [by apply IH|].
      exfalso. clear -Hw Hne.
      repeat (match type of Hw with context [match ?p with _ => _ end] =>
                destruct p; try done end). }
  assert (∀ (r : outcome (list CourseSection)) es2, Forall quiet es2 →
            r1 ≠ Done false →
    (count is_attempt_log (r, es1 ++ es2).2 ≤ 3)%nat ∧
    (∀ i e, (r, es1 ++ es2).2 !! i = Some e → is_failure_log e = true →
          (r, es1 ++ es2).2 !! S i = Some (Slept 2000)) ∧
    (count is_failure_log (r, es1 ++ es2).2 = 3%nat →
     (r, es1 ++ es2).1 = Done [] ∧ Forall not_search (r, es1 ++ es2).2 ∧
     last (r, es1 ++ es2).2 = Some abort_log)) as Hgo.
  { intros r es2 Hq Hr1. cbn [fst snd].
    destruct (Hext es2 Hq) as (-> & -> & Hwd). split_and!; [done| |].
    - intros i e. by apply well_delayed_spec.
    - intros Hc. by apply Hall in Hc. }
  destruct r1 as [[]|e|].
  - destruct (continue (h ++ es1)) as [r2 es2] eqn:Hc.
    apply Hgo; [|done]. pose proof (Hquiet (h ++ es1)) as Hq. by rewrite Hc in Hq.
  - cbn [fst snd].
    assert (Forall quiet [abort_log]) as Hq by (by repeat constructor).
    destruct (Hext _ Hq) as (-> & -> & Hwd). split_and!; [done| |].
    + intros i e. by apply well_delayed_spec.
    + intros _. split_and!; [done| |by rewrite last_snoc].
      apply Forall_app. split; [done|]. by repeat constructor.
  - rewrite <- (app_nil_r es1). by apply Hgo.
  - rewrite <- (app_nil_r es1). by apply Hgo.
Qed.

End Pipeline.


(** *** Paginated search *)

Section Pagination.
Variable net : service.
Variable term_code : string.
Variable page_max_size : Z.
Variable max_pages : option Z.

Lemma search_loop_S fuel all_courses page_offset page_count h :
  search_loop net (S fuel) term_code page_max_size max_pages all_courses
              page_offset page_count h =
  let req := search_request term_code page_max_size page_offset in
  match page_rows (net h req) with
  | None => (Done all_courses, [Sent req])
  | Some rows =>
      if decide (rows = []) then (Done all_courses, [Sent req])
      else if decide (ceiling_reached max_pages (page_count + 1))
      then (Done (all_courses ++ rows), [Sent req])
      else if Z.of_nat (length rows) <? page_max_size
      then (Done (all_courses ++ rows), [Sent req])
      else
        let '(r, es) :=
          search_loop net fuel term_code page_max_size max_pages
                      (all_courses ++ rows) (page_offset + page_max_size)
                      (page_count + 1) (h ++ [Sent req; Slept 500]) in
        (r, Sent req :: Slept 500 :: es)
  end.
Proof.
  cbn [search_loop]. cbv zeta.
  unfold fetch_page, try_except, mbind, M_bind, send, page_rows, raise_for_status,
    json, sleep, emit.
  destruct (net h (search_request term_code page_max_size page_offset))
    as [[]|[status [txt|obj]]]; cbn [exn_of_failure is_RequestException app
      status_code content mret M_ret raise fst snd]; try reflexivity.
  - destruct ((400 <=? status) && (status <? 600)); reflexivity.
  - destruct ((400 <=? status) && (status <? 600)); cbn [mret M_ret raise
      is_RequestException app]; [reflexivity|].
    destruct (truthy (get (members obj) "success" (PBool false)));
      cbn [mret M_ret app]; [|reflexivity].
    destruct (decide (default [] (data obj) = [])) as [E|E].
    + rewrite bool_decide_eq_true_2 by done. reflexivity.
    + rewrite bool_decide_eq_false_2 by done.
      destruct (decide (ceiling_reached max_pages (page_count + 1))) as [C|C].
      * destruct max_pages as [m|]; [|done]. destruct C as [C1 C2]. cbn [default].
        rewrite bool_decide_eq_true_2 by done.
        rewrite (proj2 (Z.leb_le _ _)) by done. reflexivity.
      * assert (bool_decide (default 0 max_pages ≠ 0)
                && (default 0 max_pages <=? page_count + 1) = false) as ->.
        { destruct max_pages as [m|]; cbn [default]; [|done].
          apply andb_false_iff. destruct (decide (m = 0)) as [->|Hm]; [by left|].
          right. apply Z.leb_gt. unfold ceiling_reached in C. unfold id. lia. }
        destruct (Z.of_nat (length (default [] (data obj))) <? page_max_size);
          cbn [mret M_ret app]; [reflexivity|].
        reflexivity.
Qed.

Lemma search_loop_rows fuel all_courses page_offset page_count h :
  match search_loop net fuel term_code page_max_size max_pages all_courses
                    page_offset page_count h with
  | (Done courses, es) => courses = all_courses ++ fetched_rows net h es
  | _ => True
  end.
Proof.
  revert all_courses page_offset page_count h.
  induction fuel as [|fuel IH]; intros all_courses page_offset page_count h;
    [done|].
  rewrite search_loop_S. cbv zeta.
  destruct (page_rows (net h (search_request _ _ _))) as [rows|] eqn:Hrows;
    cbn [fetched_rows]; rewrite ?Hrows; cbn [default];
    [|by rewrite !app_nil_r].
  destruct (decide (rows = [])) as [->|Hne];
    [cbn [fetched_rows]; by rewrite ?Hrows, !app_nil_r|].
  destruct (decide (ceiling_reached _ _));
    [cbn [fetched_rows]; by rewrite ?Hrows, !app_nil_r|].
  destruct (_ <? _); [cbn [fetched_rows]; by rewrite ?Hrows, !app_nil_r|].
  specialize (IH (all_courses ++ rows) (page_offset + page_max_size)
                 (page_count + 1)
                 (h ++ [Sent (search_request term_code page_max_size page_offset);
                        Slept 500])).
  destruct (search_loop _ _ _ _ _ _ _ _ _) as [[courses| |] es]; [|done..].
  cbn [fetched_rows]. rewrite Hrows. cbn [default app].
  rewrite <- (assoc_L (++) h). cbn [app]. by rewrite IH, <- (assoc_L (++)).
Qed.

Lemma search_loop_never_raises fuel all_courses page_offset page_count h e es :
  search_loop net fuel term_code page_max_size max_pages all_courses
              page_offset page_count h ≠ (Raised e, es).
Proof.
  revert all_courses page_offset page_count h es.
  induction fuel as [|fuel IH]; intros all_courses page_offset page_count h es;
    [done|].
  rewrite search_loop_S. cbv zeta.
  repeat (match goal with
          | |- context [match ?x with _ => _ end] => destruct x eqn:?
          end); try done.
  intros [= -> _]. by eapply IH.
Qed.

Lemma search_loop_fuel_mono fuel fuel' all_courses page_offset page_count h
    courses es :
  (fuel ≤ fuel')%nat →
  search_loop net fuel term_code page_max_size max_pages all_courses
              page_offset page_count h = (Done courses, es) →
  search_loop net fuel' term_code page_max_size max_pages all_courses
              page_offset page_count h = (Done courses, es).
Proof.
  revert fuel' all_courses page_offset page_count h es.
  induction fuel as [|fuel IH];
    intros fuel' all_courses page_offset page_count h es Hle; [done|].
  destruct fuel' as [|fuel']; [lia|].
  rewrite !search_loop_S. cbv zeta.
  destruct (page_rows _) as [rows|]; [|done].
  destruct (decide (rows = [])); [done|].
  destruct (decide (ceiling_reached max_pages (page_count + 1))); [done|].
  destruct (_ <? _); [done|].
  destruct (search_loop net fuel _ _ _ _ _ _ _) as [r1 es1] eqn:Hrun.
  intros [= -> <-]. by rewrite (IH fuel' _ _ _ _ _ ltac:(lia) Hrun).
Qed.

Lemma search_loop_under_ceiling (m : Z) fuel all_courses page_offset page_count h :
  max_pages = Some m → m ≠ 0 →
  (1 ≤ fuel)%nat → m - page_count ≤ Z.of_nat fuel →
  ∃ courses es,
    search_loop net fuel term_code page_max_size max_pages all_courses
                page_offset page_count h = (Done courses, es).
Proof.
  intros Hm Hm0. revert all_courses page_offset page_count h.
  induction fuel as [|fuel IH]; intros all_courses page_offset page_count h H1 Hle;
    [lia|].
  rewrite search_loop_S. cbv zeta.
  destruct (page_rows _) as [rows|]; [|by eauto].
  destruct (decide (rows = [])); [by eauto|].
  destruct (decide (ceiling_reached max_pages (page_count + 1))) as [|Hopen];
    [by eauto|].
  destruct (_ <? _); [by eauto|].
  rewrite Hm in Hopen. unfold ceiling_reached in Hopen.
  destruct (IH (all_courses ++ rows) (page_offset + page_max_size)
               (page_count + 1)
               (h ++ [Sent (search_request term_code page_max_size page_offset);
                      Slept 500])) as (courses & es & ->); [lia..|].
  eauto.
Qed.

(** C5, amended.  Below the page-count ceiling, a successful page that is
    not empty and has exactly [page_max_size] rows is followed, after a
    pause, by the fetch at the offset increased by [page_max_size]; a
    successful page with fewer rows, or with none, ends the search with no
    further fetch; the search never raises, and the rows it returns are
    those of the pages fetched, in the order fetched; under a ceiling of
    [m] pages, [m] rounds of the loop are enough for it to return. *)
Theorem pagination_step (fuel : nat) (all_courses : list pydict)
    (page_offset page_count : Z) (h : list event) (rows : list pydict) :
  page_rows (net h (search_request term_code page_max_size page_offset))
    = Some rows →
  ¬ ceiling_reached max_pages (page_count + 1) →
  let req := search_request term_code page_max_size page_offset in
  let next := search_request term_code page_max_size (page_offset + page_max_size) in
  (rows ≠ [] → Z.of_nat (length rows) = page_max_size →
     ∃ r es,
       search_loop net (S (S fuel)) term_code page_max_size max_pages all_courses
                   page_offset page_count h
       = (r, Sent req :: Slept 500 :: Sent next :: es) ∧
       search_loop net (S fuel) term_code page_max_size max_pages
                   (all_courses ++ rows) (page_offset + page_max_size)
                   (page_count + 1) (h ++ [Sent req; Slept 500])
       = (r, Sent next :: es)) ∧
  (rows = [] ∨ Z.of_nat (length rows) < page_max_size →
     search_loop net (S fuel) term_code page_max_size max_pages all_courses
                 page_offset page_count h
     = (Done (all_courses ++ rows), [Sent req])) ∧
  (∀ n campus h',
     match search_courses net n term_code campus page_max_size max_pages h' with
     | (Done courses, es) => courses = fetched_rows net h' es
     | (Raised _, _) => False
     | (Running, _) => True
     end) ∧
  (∀ m n campus h',
     max_pages = Some m → m ≠ 0 → (1 ≤ n)%nat → m ≤ Z.of_nat n →
     ∃ courses es,
       search_courses net n term_code campus page_max_size max_pages h'
       = (Done courses, es)).
Proof.
  intros Hrows Hopen req next. split_and!.
  - intros Hne Hfull.
    assert (∃ r es,
      search_loop net (S fuel) term_code page_max_size max_pages
                  (all_courses ++ rows) (page_offset + page_max_size)
                  (page_count + 1) (h ++ [Sent req; Slept 500])
      = (r, Sent next :: es)) as (r & es & Hnext).
    all: subst req next.
    { rewrite search_loop_S. cbv zeta.
      repeat (match goal with
              | |- context [match ?x with _ => _ end] => destruct x
              end); eauto. }
    exists r, es. split; [|done].
    rewrite search_loop_S. cbv zeta. rewrite Hrows.
    rewrite decide_False, decide_False by done.
    rewrite (proj2 (Z.ltb_ge _ _)) by lia. by rewrite Hnext.
  - intros Hstop. rewrite search_loop_S. cbv zeta. rewrite Hrows.
    destruct (decide (rows = [])) as [->|Hne]; [by rewrite app_nil_r|].
    rewrite decide_False by done.
    destruct Hstop as [?|Hlt]; [done|]. by rewrite (proj2 (Z.ltb_lt _ _)).
  - intros n campus h'. unfold search_courses.
    pose proof (search_loop_rows n [] 0 0 h') as Hrows'.
    pose proof (search_loop_never_raises n [] 0 0 h') as Hraise.
    destruct (search_loop net n _ _ _ _ _ _ _) as [[courses|e|] es];
      [done| |done].
    by destruct (Hraise e es).
  - intros m n campus h' Hm Hm0 Hn Hle. unfold search_courses.
    apply (search_loop_under_ceiling m); [done..|lia].
Qed.

End Pagination.


(** C5 as stated fails for a page size of zero: a successful page with no
    rows has exactly [page_max_size] rows, and ends the search. *)
Lemma full_page_of_zero_rows_stops :
  ¬ (∀ (net : service) (term_code : string) (page_max_size : Z)
       (max_pages : option Z) (fuel : nat) (all_courses : list pydict)
       (page_offset page_count : Z) (h : list event) (rows : list pydict),
       page_rows (net h (search_request term_code page_max_size page_offset))
         = Some rows →
       ¬ ceiling_reached max_pages (page_count + 1) →
       Z.of_nat (length rows) = page_max_size →
       ∃ r es,
         search_loop net (S (S fuel)) term_code page_max_size max_pages
                     all_courses page_offset page_count h
         = (r, Sent (search_request term_code page_max_size page_offset)
               :: Slept 500
               :: Sent (search_request term_code page_max_size
                                       (page_offset + page_max_size))
               :: es)).
Proof.
  intros Hall.
  destruct (Hall Samples.empty_pages "202510" 0 None 0%nat [] 0 0 [] [])
    as (r & es & Hrun); [reflexivity|by intros []|reflexivity|].
  vm_compute in Hrun. discriminate Hrun.
Qed.

(** *** The theorems at sample inputs *)

Lemma pagination_step_witness :
  page_rows (Samples.three_pages [] (search_request "202510" 2 0)) = Some [∅; ∅] ∧
  ¬ ceiling_reached None (0 + 1) ∧
  ∃ r es,
    search_loop Samples.three_pages 2 "202510" 2 None [] 0 0 []
    = (r, Sent (search_request "202510" 2 0) :: Slept 500
          :: Sent (search_request "202510" 2 2) :: es).
Proof.
  assert (page_rows (Samples.three_pages [] (search_request "202510" 2 0))
          = Some [∅; ∅]) as Hrows by reflexivity.
  assert (¬ ceiling_reached None (0 + 1)) as Hopen by (intros []).
  split; [exact Hrows|]. split; [exact Hopen|].
  destruct (pagination_step Samples.three_pages "202510" 2 None 0 [] 0 0 []
              [∅; ∅] Hrows Hopen) as [Hfull _].
  destruct Hfull as (r & es & Hrun & _); [discriminate|reflexivity|].
  exists r, es. exact Hrun.
Defined.

Lemma differ_missing_old_witness :
  Samples.disk !! "missing.csv" = None ∧
  compare_course_files Samples.disk "missing.csv" "courses.csv"
  = Ok empty_comparison.
Proof.
  assert (Samples.disk !! "missing.csv" = None) as Hmissing by reflexivity.
  split; [exact Hmissing|].
  exact (differ_missing_old Samples.disk "missing.csv" "courses.csv" Hmissing).
Defined.

Lemma differ_swallows_errors_witness :
  compare_body Samples.disk "broken.csv" "courses.csv" = Err ParserError ∧
  compare_course_files Samples.disk "broken.csv" "courses.csv"
  = Ok empty_comparison.
Proof.
  assert (compare_body Samples.disk "broken.csv" "courses.csv" = Err ParserError)
    as Hraise by reflexivity.
  split; [exact Hraise|].
  refine (proj1 (differ_swallows_errors Samples.disk "broken.csv" "courses.csv"
                   ParserError [Samples.section_200] _ _ Hraise)).
  - exists Garbage. reflexivity.
  - exists (Csv [Samples.section_100_new]). reflexivity.
Defined.

(** The scenarios of the differ: a change of days only; a CRN that is gone. *)
Example days_changed_only :
  (λ report, (keyed_changes <$> time_location_changes report,
              enrollment_changes report))
    (report_of (load Samples.disk "courses_OLD.csv")
               (load Samples.disk "courses.csv"))
  = ([(CInt 100, [("Days", Change "MW" "TR")])], []).
Proof. vm_compute. reflexivity. Qed.

Example section_200_removed :
  compare_course_files Samples.disk "courses_OLD.csv" "courses.csv"
  = Ok (report_of (load Samples.disk "courses_OLD.csv")
                  (load Samples.disk "courses.csv")) ∧
  removed_courses (report_of (load Samples.disk "courses_OLD.csv")
                             (load Samples.disk "courses.csv"))
  = [Samples.section_200] ∧
  added_courses (report_of (load Samples.disk "courses_OLD.csv")
                           (load Samples.disk "courses.csv")) = [].
Proof. split; [apply compare_course_files_load|]. split; vm_compute; reflexivity. Qed.

(** An enrollment change is reported for the field that has two values,
    not for the one that was ["N/A"]. *)
Example enrollment_actual_reported :
  keyed_changes <$>
    enrollment_changes (report_of (load Samples.disk "courses_OLD.csv")
                                  (load Samples.disk "enrolled.csv"))
  = [(CInt 200, [("Enrollment Actual", Change "12" "15")])].
Proof. vm_compute. reflexivity. Qed.

(** A table without the CRN column raises inside the [try] block. *)
Example missing_CRN_column :
  compare_body Samples.disk "courses_OLD.csv" "headless.csv" = Err (KeyError "CRN") ∧
  compare_course_files Samples.disk "courses_OLD.csv" "headless.csv"
  = Ok empty_comparison.
Proof. split; vm_compute; reflexivity. Qed.

Example credits_range :
  format_credit_hours Samples.variable_credit = (PInt 1, PInt 4, PStr "1-4").
Proof. vm_compute. reflexivity. Qed.

Example credits_literal_TBA :
  format_credit_hours Samples.literal_TBA = (PStr "TBA", PStr "TBA", PStr "TBA").
Proof. vm_compute. reflexivity. Qed.

Example days_MRU :
  extract_days_of_week
    (list_to_map [("sunday", PBool true); ("monday", PBool true);
                  ("thursday", PBool true); ("friday", PBool false)])
  = PStr "MRU".
Proof. vm_compute. reflexivity. Qed.

(** Three pages are fetched at the offsets 0, 2 and 4; their five rows come
    back in that order. *)
Example three_pages_run :
  search_courses Samples.three_pages 3 "202510" "OAK" 2 None []
  = (Done (replicate 5 ∅),
     [Sent (search_request "202510" 2 0); Slept 500;
      Sent (search_request "202510" 2 2); Slept 500;
      Sent (search_request "202510" 2 4)]).
Proof. vm_compute. reflexivity. Qed.

(** With the service out of reach, three attempts fail and the run aborts. *)
Example unreachable_run :
  scrape_course_schedule Samples.unreachable Samples.no_spans Samples.no_match
                         0 "202510" "OAK" 500 None []
  = (Done [],
     [attempt_log 0; Sent (Request GET class_search_url []);
      failure_log 0; Slept 2000;
      attempt_log 1; Sent (Request GET class_search_url []);
      failure_log 1; Slept 2000;
      attempt_log 2; Sent (Request GET class_search_url []);
      failure_log 2; Slept 2000;
      abort_log]).
Proof. vm_compute. reflexivity. Qed.

Example unreachable_run_failures :
  count is_failure_log
    (scrape_course_schedule Samples.unreachable Samples.no_spans
       Samples.no_match 0 "202510" "OAK" 500 None []).2 = 3%nat.
Proof. vm_compute. reflexivity. Qed.

(** A page size of zero: the first page has no rows and ends the search. *)
Example zero_page_size_run :
  search_courses Samples.empty_pages 2 "202510" "OAK" 0 None []
  = (Done [], [Sent (search_request "202510" 0 0)]).
Proof. vm_compute. reflexivity. Qed.

(** The structural parse is kept when it finds the actual enrollment; when
    it does not, the regex parse replaces it as a whole. *)
Example structural_parse_kept :
  (λ info, (info !! "enrollment_actual", info !! "enrollment_maximum",
            info !! "waitlist_actual"))
    (parse_enrollment_html Samples.spans_with_actual Samples.match_actual
                           "<span>")
  = (Some (PStr "25"), Some (PStr "30"), Some (PStr "N/A")).
Proof. vm_compute. reflexivity. Qed.

Example regex_parse_replaces :
  (λ info, (info !! "enrollment_actual", info !! "enrollment_maximum",
            info !! "waitlist_actual"))
    (parse_enrollment_html Samples.spans_without_actual Samples.match_actual
                           "<span>")
  = (Some (PStr "7"), Some (PStr "N/A"), Some (PStr "N/A")).
Proof. vm_compute. reflexivity. Qed.
